(** * Deepbot.py: the quiz session registry and its handlers

    A shallow embedding of the session part of [Deepbot.py]: the global
    dictionary [user_states], the coroutines [send_question],
    [start_quiz_from_file] and [end_quiz], and the callback handlers
    [handle_answer] and [skip_question].  Every handler is a function from
    the store before the call to the store after it, the messages it handed
    to the transport, and the exception it raised, if any. *)

From Stdlib Require Import ZArith String Ascii List Lia.
From stdpp Require Import base gmap strings list.
From Equations Require Import Equations.
Import ListNotations.
Local Open Scope Z_scope.
Local Open Scope string_scope.

(** ** Data *)

(** One entry of a topic's ["questions"] list: a JSON object in which each
    of the keys ["question"], ["options"] and ["answer"] may be absent.  A
    key that is present holds a value of the type the catalog format gives it
    (a string, a list of strings, a string). *)
Record Question := {
  question : option string;
  options : option (list string);
  answer : option string
}.

(** The dictionary stored in [user_states] per user (lines 134-143). *)
Record UserState := {
  questions : list Question;
  current_q_index : Z;
  score : Z;
  correct_answers : Z;
  incorrect_answers : Z;
  attempted_questions : Z;
  total_time_start : Z;
  last_message_id : option Z
}.

(** What a handler call reads from outside the store: the clock
    ([time.time()], in whole seconds, one reading per call), the id the
    transport gives to a sent message, and the random source behind
    [random.shuffle] (the bound is its argument). *)
Record World := {
  time_now : Z;
  sent_message_id : Z;
  randbelow : nat -> nat
}.

Record Button := { text : string; callback_data : string }.

(** The messages of the program, one constructor per call site. *)
Inductive Message :=
| MsgMainMenu                       (* send_main_menu, lines 79-85 *)
| MsgInvalidQuestion                (* line 104 *)
| MsgQuestion (number : Z) (body : string) (keyboard : list Button)
                                    (* lines 114-118 *)
| MsgNoQuestions                    (* line 128 *)
| MsgQuizStart (title : string)     (* line 145 *)
| MsgFileError                      (* line 150 *)
| MsgSummary (sc ok bad tried elapsed : Z).   (* lines 159-167 *)

(** The texts given to [callback.answer]. *)
Inductive Toast :=
| ToastStateLost                    (* line 214 *)
| ToastCorrect                      (* line 224 *)
| ToastIncorrect (expected : string).  (* line 227 *)

Inductive Output :=
| SendMessage (chat : Z) (m : Message)
| CallbackAnswer (t : Toast).

Inductive PyExn := IndexError | KeyError | OSError.

(** The result of running a handler: mutations of [user_states] and
    messages already sent stay in place when an exception is raised. *)
Record Outcome := {
  store : gmap Z UserState;
  trace : list Output;
  raised : option PyExn
}.

(** ** A small monad for the handlers: store, output, exceptions *)

Definition M := gmap Z UserState -> Outcome.

Definition skip : M := fun s => {| store := s; trace := []; raised := None |}.

Definition emit (o : Output) : M :=
  fun s => {| store := s; trace := [o]; raised := None |}.

Definition raise (e : PyExn) : M :=
  fun s => {| store := s; trace := []; raised := Some e |}.

(** [state[...] = ...] on the dictionary that [user_states] holds for
    [uid]: the handler's [state] is an alias of the stored object. *)
Definition update (uid : Z) (f : UserState -> UserState) : M :=
  fun s => {| store := alter f uid s; trace := []; raised := None |}.

(** The messages of [r] come after [pre]. *)
Definition after (pre : list Output) (r : Outcome) : Outcome :=
  {| store := store r; trace := pre ++ trace r; raised := raised r |}.

Definition seq (m1 m2 : M) : M :=
  fun s =>
    let r1 := m1 s in
    match raised r1 with
    | Some _ => r1
    | None => after (trace r1) (m2 (store r1))
    end.

Notation "m1 >>> m2" := (seq m1 m2) (at level 65, right associativity).

(** ** Python primitives *)

(** [l[i]] for a Python integer [i]: a negative index counts from the end,
    and an index out of range raises [IndexError] (here [None]). *)
Definition py_getitem {A} (l : list A) (i : Z) : option A :=
  if decide (0 <= i) then l !! Z.to_nat i
  else if decide (- Z.of_nat (length l) <= i)
       then l !! Z.to_nat (Z.of_nat (length l) + i)
       else None.

Fixpoint is_prefix (p s : string) : bool :=
  match p, s with
  | EmptyString, _ => true
  | String a p', String b s' => if Ascii.eqb a b then is_prefix p' s' else false
  | String _ _, EmptyString => false
  end.

(** [s.replace(old, empty)] for a non-empty [old] and the empty string as
    replacement: one pass from the left,
    every occurrence found is dropped and the search resumes after it.
    [drop] counts the characters of an occurrence still to be dropped. *)
Fixpoint remove_from (old : string) (drop : nat) (s : string) : string :=
  match s with
  | EmptyString => EmptyString
  | String c s' =>
      match drop with
      | S k => remove_from old k s'
      | O => if is_prefix old s
             then remove_from old (String.length old - 1) s'
             else String c (remove_from old 0 s')
      end
  end.

Definition py_remove (old s : string) : string := remove_from old 0 s.

(** [old in s]. *)
Fixpoint occurs (old s : string) : bool :=
  is_prefix old s ||
  match s with
  | EmptyString => false
  | String _ s' => occurs old s'
  end.

(** [x[i], x[j] = x[j], x[i]]. *)
Definition swap {A} (x : list A) (i j : nat) : list A :=
  match x !! i, x !! j with
  | Some a, Some b => <[j:=a]> (<[i:=b]> x)
  | _, _ => x
  end.

(** The loop of [random.shuffle]:
    [for i in reversed(range(1, len(x))): j = randbelow(i + 1); swap]. *)
Fixpoint shuffle_from {A} (rnd : nat -> nat) (i : nat) (x : list A) : list A :=
  match i with
  | O => x
  | S i' => shuffle_from rnd i' (swap x i (rnd (S i) mod S i)%nat)
  end.

Definition shuffle {A} (rnd : nat -> nat) (x : list A) : list A :=
  shuffle_from rnd (length x - 1) x.

(** ** The coroutines *)

Definition send_main_menu (chat_id : Z) : M := emit (SendMessage chat_id MsgMainMenu).

(** [end_quiz], lines 153-168. *)
Definition end_quiz (w : World) (uid chat_id : Z) : M :=
  fun s =>
    match s !! uid with
    | None => skip (delete uid s)
    | Some state =>
        (emit (SendMessage chat_id
                 (MsgSummary (score state) (correct_answers state)
                    (incorrect_answers state) (attempted_questions state)
                    (time_now w - total_time_start state))) >>>
         send_main_menu chat_id) (delete uid s)
    end.

(** The test of line 102, negated: all three keys are present. *)
Definition well_formed (q : Question) : bool :=
  match question q, options q, answer q with
  | Some _, Some _, Some _ => true
  | _, _, _ => false
  end.

Definition option_button (option : string) : Button :=
  {| text := option; callback_data := "answer_" ++ option |}.

Definition skip_button : Button :=
  {| text := "Skip Question"; callback_data := "skip_question" |}.

Definition next_index (state : UserState) : UserState :=
  {| questions := questions state;
     current_q_index := current_q_index state + 1;
     score := score state;
     correct_answers := correct_answers state;
     incorrect_answers := incorrect_answers state;
     attempted_questions := attempted_questions state;
     total_time_start := total_time_start state;
     last_message_id := last_message_id state |}.

Definition set_last_message (mid : Z) (state : UserState) : UserState :=
  {| questions := questions state;
     current_q_index := current_q_index state;
     score := score state;
     correct_answers := correct_answers state;
     incorrect_answers := incorrect_answers state;
     attempted_questions := attempted_questions state;
     total_time_start := total_time_start state;
     last_message_id := Some mid |}.

(** Lines 109-119: the keyboard, the message, and the id kept in the state. *)
Definition present (w : World) (uid chat_id : Z) (idx : Z) (q : Question) : M :=
  match question q, options q with
  | Some body, Some opts =>
      emit (SendMessage chat_id
              (MsgQuestion (idx + 1) body (map option_button opts ++ [skip_button]))) >>>
      update uid (set_last_message (sent_message_id w))
  | _, _ => raise KeyError
  end.

(** How many questions lie at or after the cursor: what the recursion of
    [send_question] consumes. *)
Definition remaining (uid : Z) (s : gmap Z UserState) : nat :=
  match s !! uid with
  | Some state => Z.to_nat (Z.of_nat (length (questions state)) - current_q_index state)
  | None => O
  end.

(** Case analysis that keeps the equation, for the recursion below. *)
Definition inspect {A} (x : A) : { y : A | x = y } := exist _ x eq_refl.


(** [send_question], lines 87-119.  The call of line 106 is a recursion on
    the number of questions left, which gives a total function: the depth
    of the interpreter's stack, which bounds a run of malformed questions
    in a row (at about a thousand, with [RecursionError] beyond), is not
    modelled. *)
Equations? send_question (w : World) (uid chat_id : Z) (s : gmap Z UserState)
  : Outcome by wf (remaining uid s) lt :=
  send_question w uid chat_id s with inspect (s !! uid) => {
    | exist _ None _ := send_main_menu chat_id s
    | exist _ (Some state) Hst
        with inspect (decide (Z.of_nat (length (questions state)) <= current_q_index state)) => {
        | exist _ (left _) _ := end_quiz w uid chat_id s
        | exist _ (right Hlt) _
            with inspect (py_getitem (questions state) (current_q_index state)) => {
            | exist _ None _ := raise IndexError s
            | exist _ (Some q) _ with inspect (well_formed q) => {
                | exist _ true _ := present w uid chat_id (current_q_index state) q s
                | exist _ false _ :=
                    after [SendMessage chat_id MsgInvalidQuestion]
                      (send_question w uid chat_id (alter next_index uid s))
              }
          }
      }
  }.
Proof.
  unfold remaining. rewrite lookup_alter_eq, Hst. simpl. lia.
Qed.

(** What [open] and [json.load] give at lines 123-124: an exception, or
    the topic object, whose ["questions"] key is absent or holds a list
    ([load_topics], line 51, keeps only files where it is a list). *)
Inductive FileRead :=
| ReadError
| TopicData (questions_field : option (list Question)).

(** [try: body except Exception: handler]. *)
Definition try_except (body handler : M) : M :=
  fun s =>
    let r := body s in
    match raised r with
    | None => r
    | Some _ => after (trace r) (handler (store r))
    end.

(** The dictionary literal of lines 134-143. *)
Definition new_state (w : World) (quiz_data : list Question) : UserState :=
  {| questions := quiz_data;
     current_q_index := 0;
     score := 0;
     correct_answers := 0;
     incorrect_answers := 0;
     attempted_questions := 0;
     total_time_start := time_now w;
     last_message_id := None |}.

Definition assign (uid : Z) (state : UserState) : M :=
  fun s => {| store := <[uid:=state]> s; trace := []; raised := None |}.

(** [start_quiz_from_file], lines 121-151. *)
Definition start_quiz_from_file (w : World) (uid chat_id : Z)
    (file : FileRead) (topic_title : string) : M :=
  try_except
    (match file with
     | ReadError => raise OSError
     | TopicData questions_field =>
         match default [] questions_field with
         | [] => emit (SendMessage chat_id MsgNoQuestions) >>> send_main_menu chat_id
         | quiz_data =>
             assign uid (new_state w (shuffle (randbelow w) quiz_data)) >>>
             emit (SendMessage chat_id (MsgQuizStart topic_title)) >>>
             send_question w uid chat_id
         end
     end)
    (emit (SendMessage chat_id MsgFileError) >>> send_main_menu chat_id).

Definition count_attempt (state : UserState) : UserState :=
  {| questions := questions state;
     current_q_index := current_q_index state;
     score := score state;
     correct_answers := correct_answers state;
     incorrect_answers := incorrect_answers state;
     attempted_questions := attempted_questions state + 1;
     total_time_start := total_time_start state;
     last_message_id := last_message_id state |}.

Definition count_correct (state : UserState) : UserState :=
  {| questions := questions state;
     current_q_index := current_q_index state;
     score := score state + 1;
     correct_answers := correct_answers state + 1;
     incorrect_answers := incorrect_answers state;
     attempted_questions := attempted_questions state;
     total_time_start := total_time_start state;
     last_message_id := last_message_id state |}.

Definition count_incorrect (state : UserState) : UserState :=
  {| questions := questions state;
     current_q_index := current_q_index state;
     score := score state;
     correct_answers := correct_answers state;
     incorrect_answers := incorrect_answers state + 1;
     attempted_questions := attempted_questions state;
     total_time_start := total_time_start state;
     last_message_id := last_message_id state |}.

(** Lines 221-227: the comparison with [current_q['answer']]. *)
Definition grade (uid : Z) (selected : string) (current_q : Question) : M :=
  match answer current_q with
  | None => raise KeyError
  | Some expected =>
      if String.eqb selected expected
      then update uid count_correct >>> emit (CallbackAnswer ToastCorrect)
      else update uid count_incorrect >>>
           emit (CallbackAnswer (ToastIncorrect expected))
  end.

(** [handle_answer], lines 209-230; [data] is [callback.data]. *)
Definition handle_answer (w : World) (uid chat_id : Z) (data : string) : M :=
  fun s =>
    match s !! uid with
    | None => emit (CallbackAnswer ToastStateLost) s
    | Some state =>
        let selected := py_remove "answer_" data in
        match py_getitem (questions state) (current_q_index state) with
        | None => raise IndexError s
        | Some current_q =>
            (update uid count_attempt >>>
             grade uid selected current_q >>>
             update uid next_index >>>
             send_question w uid chat_id) s
        end
    end.

(** [skip_question], lines 232-238. *)
Definition skip_question (w : World) (uid chat_id : Z) : M :=
  fun s =>
    match s !! uid with
    | None => skip s
    | Some _ => (update uid next_index >>> send_question w uid chat_id) s
    end.

(** ** Events, one per handler call, and their sequential processing *)

Inductive Event :=
| TopicChosen (w : World) (uid chat_id : Z) (file : FileRead) (title : string)
| AnswerTapped (w : World) (uid chat_id : Z) (data : string)
| SkipTapped (w : World) (uid chat_id : Z).

Definition handle (e : Event) : M :=
  match e with
  | TopicChosen w uid chat_id file title => start_quiz_from_file w uid chat_id file title
  | AnswerTapped w uid chat_id data => handle_answer w uid chat_id data
  | SkipTapped w uid chat_id => skip_question w uid chat_id
  end.

(** The handlers run one after the other, each to its end: the store a
    handler leaves, whether it raised or not, is the store the next one
    finds.  The dispatcher may also take up an event while a handler waits
    at one of its awaits; [two_answers_racing] below is such a run. *)
Fixpoint run (es : list Event) (s : gmap Z UserState) : gmap Z UserState :=
  match es with
  | [] => s
  | e :: es' => run es' (store (handle e s))
  end.

(** ** The scenario of the two capitals *)

Definition capitals : list Question :=
  [ {| question := Some "Capital of France?";
       options := Some ["Paris"; "Berlin"]; answer := Some "Paris" |};
    {| question := Some "Capital of Japan?";
       options := Some ["Tokyo"; "Seoul"]; answer := Some "Tokyo" |} ].

Definition world0 : World :=
  {| time_now := 100; sent_message_id := 7; randbelow := fun _ => 1%nat |}.

(** ** Notions used in the statements *)

(** The cursor moved [k] places on, everything else as it was. *)
Definition move_index (k : Z) (state : UserState) : UserState :=
  {| questions := questions state;
     current_q_index := current_q_index state + k;
     score := score state;
     correct_answers := correct_answers state;
     incorrect_answers := incorrect_answers state;
     attempted_questions := attempted_questions state;
     total_time_start := total_time_start state;
     last_message_id := last_message_id state |}.

(** The number of malformed questions at the head of a list. *)
Fixpoint malformed_run (qs : list Question) : nat :=
  match qs with
  | [] => O
  | q :: qs' => if well_formed q then O else S (malformed_run qs')
  end.

(** The malformed questions met from the cursor on. *)
Definition to_skip (state : UserState) : nat :=
  malformed_run (drop (Z.to_nat (current_q_index state)) (questions state)).

(** Where the cursor stands once the malformed questions are skipped. *)
Definition landing (state : UserState) : UserState :=
  move_index (Z.of_nat (to_skip state)) state.

(** The cursor is on a well-formed question. *)
Definition poised (state : UserState) : Prop :=
  0 <= current_q_index state /\
  exists q, questions state !! Z.to_nat (current_q_index state) = Some q /\
            well_formed q = true.

(** The session as [handle_answer] leaves it for [send_question]. *)
Definition graded (hit : bool) (state : UserState) : UserState :=
  next_index ((if hit then count_correct else count_incorrect) (count_attempt state)).

(** ** Topics and stores used as examples *)

(** The store once user 1 has started the quiz on the capitals. *)
Definition capitals_store : gmap Z UserState :=
  {[ 1 := set_last_message 7 (new_state world0 capitals) ]}.

(** A topic whose first entry has no ["answer"] key. *)
Definition france_without_answer : Question :=
  {| question := Some "Capital of France?";
     options := Some ["Paris"; "Berlin"]; answer := None |}.

(** A well-formed entry. *)
Definition japan : Question :=
  {| question := Some "Capital of Japan?";
     options := Some ["Tokyo"; "Seoul"]; answer := Some "Tokyo" |}.

(** A session as line 134 creates it, the cursor on the flawed entry. *)
Definition flawed_store : gmap Z UserState :=
  {[ 1 := new_state world0 [france_without_answer; japan] ]}.

(** A topic with one entry, which has none of the three keys. *)
Definition blank : Question :=
  {| question := None; options := None; answer := None |}.

(** An option that contains ["answer_"], and an answer that is not among
    the options. *)
Definition france_prefixed : Question :=
  {| question := Some "Capital of France?";
     options := Some ["answer_Paris"; "Berlin"]; answer := Some "Paris" |}.

(** The store once user 1 has been shown that question. *)
Definition prefixed_store : gmap Z UserState :=
  {[ 1 := set_last_message 7 (new_state world0 [france_prefixed]) ]}.

(** ** The topic catalog: [load_topics] and the menus *)

(** [s.replace(old, new)] for a non-empty [old], in the same single pass
    as [remove_from]. *)
Fixpoint replace_from (old new : string) (drop : nat) (s : string) : string :=
  match s with
  | EmptyString => EmptyString
  | String c s' =>
      match drop with
      | S k => replace_from old new k s'
      | O => if is_prefix old s
             then new ++ replace_from old new (String.length old - 1) s'
             else String c (replace_from old new 0 s')
      end
  end.

Definition py_replace (old new s : string) : string := replace_from old new 0 s.

(** [s.endswith(suffix)]. *)
Fixpoint ends_with (suffix s : string) : bool :=
  String.eqb suffix s ||
  match s with
  | EmptyString => false
  | String _ s' => ends_with suffix s'
  end.

(** [os.path.join(a, b)] on POSIX. *)
Definition path_join (a b : string) : string :=
  if is_prefix "/" b then b
  else if String.eqb a EmptyString || ends_with "/" a then a ++ b
  else a ++ "/" ++ b.

(** The value cached for a topic (line 55). *)
Record Topic := { path : string; title : string }.

(** A Python dictionary with string keys, in insertion order: [d.get(k)]
    and [d[k] = v], which keeps the place of a key already there. *)
Fixpoint dict_get {V} (k : string) (d : list (string * V)) : option V :=
  match d with
  | [] => None
  | (k', v) :: d' => if String.eqb k' k then Some v else dict_get k d'
  end.

Fixpoint dict_set {V} (k : string) (v : V) (d : list (string * V))
  : list (string * V) :=
  match d with
  | [] => [(k, v)]
  | (k', v') :: d' =>
      if String.eqb k' k then (k, v) :: d' else (k', v') :: dict_set k v d'
  end.

(** [cached_topics] (line 36). *)
Record Catalog := {
  gk : list (string * Topic);
  ca : list (string * Topic)
}.

(** What [data["questions"]] is at line 51. *)
Inductive QuestionsField :=
| QAbsent
| QNotList
| QList (qs : list Question).

(** What lines 47-49 find in a file: [open] or [json.load] raises or the
    value is not an object (then [data.get] raises), or it is an object,
    with or without a ["title"]. *)
Inductive JsonFile :=
| Unreadable
| JsonObject (json_title : option string) (questions_field : QuestionsField).

(** The file system as [load_topics] sees it: the working directory, and
    for a path [None] when it is no directory, else what [os.listdir]
    returns, each name with the content of its file. *)
Record Disk := {
  cwd : string;
  listdir : string -> option (list (string * JsonFile))
}.

(** The lines written to the log. *)
Inductive Log :=
| LogLoaded (topic_title : string)      (* line 56 *)
| LogInvalid (filename : string)        (* line 52 *)
| LogError (filename : string)          (* line 58 *)
| LogNoDirectory (folder : string).     (* line 60 *)

(** The default of line 49; [title_case] stands for [str.title]. *)
Definition default_title (title_case : string -> string) (filename : string)
  : string :=
  title_case (py_replace "_" " " (py_replace ".json" EmptyString filename)).

(** The body of the loop of line 43 for one name. *)
Definition load_file (title_case : string -> string) (dir filename : string)
    (content : JsonFile) (d : list (string * Topic))
  : list (string * Topic) * list Log :=
  if ends_with ".json" filename then
    match content with
    | Unreadable => (d, [LogError filename])
    | JsonObject json_title questions_field =>
        let topic_title := default (default_title title_case filename) json_title in
        match questions_field with
        | QList _ =>
            (dict_set filename
               {| path := path_join dir filename; title := topic_title |} d,
             [LogLoaded topic_title])
        | _ => (d, [LogInvalid filename])
        end
    end
  else (d, []).

Fixpoint load_files (title_case : string -> string) (dir : string)
    (files : list (string * JsonFile)) (d : list (string * Topic))
  : list (string * Topic) * list Log :=
  match files with
  | [] => (d, [])
  | (filename, content) :: files' =>
      let (d1, log1) := load_file title_case dir filename content d in
      let (d2, log2) := load_files title_case dir files' d1 in
      (d2, (log1 ++ log2)%list)
  end.

(** One turn of the loop of line 40. *)
Definition load_folder (title_case : string -> string) (disk : Disk)
    (folder : string) : list (string * Topic) * list Log :=
  let dir := path_join (cwd disk) folder in
  match listdir disk dir with
  | Some files => load_files title_case dir files []
  | None => ([], [LogNoDirectory folder])
  end.

(** [load_topics], lines 39-60, from the initial [cached_topics]. *)
Definition load_topics (title_case : string -> string) (disk : Disk)
  : Catalog * list Log :=
  let (g, log_gk) := load_folder title_case disk "gk_topics" in
  let (c, log_ca) := load_folder title_case disk "current_affairs" in
  ({| gk := g; ca := c |}, (log_gk ++ log_ca)%list).

(** A key of the main menu: a callback button or a link. *)
Inductive Key :=
| CallbackKey (label data : string)
| UrlKey (label url : string).

Definition YOUTUBE_LINK : string :=
  "https://www.youtube.com/@sscwalistudy?sub_confirmation=1".

(** [get_main_menu_markup], lines 65-70 (the labels without their emoji). *)
Definition get_main_menu_markup : list Key :=
  [CallbackKey "GK TOPICS" "gk_menu";
   CallbackKey "CURRENT AFFAIRS" "ca_menu";
   UrlKey "SUBSCRIBE NOW" YOUTUBE_LINK].

Definition back_button : Button :=
  {| text := "Back"; callback_data := "main_menu" |}.

Definition topic_button (prefix : string) (entry : string * Topic) : Button :=
  {| text := title (snd entry); callback_data := prefix ++ fst entry |}.

(** The keyboards of [show_gk_topics] and [show_ca_topics], lines 175-189. *)
Definition show_gk_topics (cached_topics : Catalog) : list Button :=
  (map (topic_button "gk_") (gk cached_topics) ++ [back_button])%list.

Definition show_ca_topics (cached_topics : Catalog) : list Button :=
  (map (topic_button "ca_") (ca cached_topics) ++ [back_button])%list.

(** [start_gk_quiz] and [start_ca_quiz], lines 195-207; [read] is what
    opening a path gives at the time of the tap. *)
Definition start_gk_quiz (w : World) (read : string -> FileRead)
    (cached_topics : Catalog) (uid chat_id : Z) (data : string) : M :=
  let filename := py_remove "gk_" data in
  match dict_get filename (gk cached_topics) with
  | Some topic => start_quiz_from_file w uid chat_id (read (path topic)) (title topic)
  | None => skip
  end.

Definition start_ca_quiz (w : World) (read : string -> FileRead)
    (cached_topics : Catalog) (uid chat_id : Z) (data : string) : M :=
  let filename := py_remove "ca_" data in
  match dict_get filename (ca cached_topics) with
  | Some topic => start_quiz_from_file w uid chat_id (read (path topic)) (title topic)
  | None => skip
  end.

(** The callback handlers, in the order of their registration. *)
Inductive Handler :=
| show_gk_topics_h      (* F.data == "gk_menu" *)
| show_ca_topics_h      (* F.data == "ca_menu" *)
| back_to_menu_h        (* F.data == "main_menu" *)
| start_gk_quiz_h       (* F.data.startswith("gk_") *)
| start_ca_quiz_h       (* F.data.startswith("ca_") *)
| handle_answer_h       (* F.data.startswith("answer_") *)
| skip_question_h.      (* F.data == "skip_question" *)

(** The handler a callback query goes to: the first one, in that order,
    whose filter accepts the data; none when no filter does. *)
Definition route (data : string) : option Handler :=
  if String.eqb data "gk_menu" then Some show_gk_topics_h
  else if String.eqb data "ca_menu" then Some show_ca_topics_h
  else if String.eqb data "main_menu" then Some back_to_menu_h
  else if is_prefix "gk_" data then Some start_gk_quiz_h
  else if is_prefix "ca_" data then Some start_ca_quiz_h
  else if is_prefix "answer_" data then Some handle_answer_h
  else if String.eqb data "skip_question" then Some skip_question_h
  else None.

(** ** Notions used in the further properties *)

(** The user an event comes from. *)
Definition event_user (e : Event) : Z :=
  match e with
  | TopicChosen _ uid _ _ _ => uid
  | AnswerTapped _ uid _ _ => uid
  | SkipTapped _ uid _ => uid
  end.

(** [m] touches no session but that of [uid]. *)
Definition confined (uid : Z) (m : M) : Prop :=
  forall (s : gmap Z UserState) v, v <> uid -> store (m s) !! v = s !! v.

(** A listed file that [load_topics] caches: its name ends in [".json"]
    and it holds an object whose ["questions"] is a list. *)
Definition loadable (entry : string * JsonFile) : bool :=
  ends_with ".json" (fst entry) &&
  match snd entry with
  | JsonObject _ (QList _) => true
  | _ => false
  end.

(** What is cached for such a file found in [dir]. *)
Definition cached_entry (title_case : string -> string) (dir : string)
    (entry : string * JsonFile) : string * Topic :=
  (fst entry,
   {| path := path_join dir (fst entry);
      title := match snd entry with
               | JsonObject (Some t) _ => t
               | _ => default_title title_case (fst entry)
               end |}).

(** A folder of general-knowledge topics with one good file, one file of
    another kind and one that cannot be read; no folder of current
    affairs. *)
Definition sample_files : list (string * JsonFile) :=
  [("capitals.json", JsonObject (Some "Capitals") (QList capitals));
   ("notes.txt", Unreadable);
   ("broken.json", Unreadable)].

Definition sample_disk : Disk :=
  {| cwd := "/bot";
     listdir := fun dir => if String.eqb dir "/bot/gk_topics"
                           then Some sample_files else None |}.

(** ** [handle_answer] around its await *)

(** The counters after lines 220-227, the cursor not yet moved. *)
Definition scored (hit : bool) (state : UserState) : UserState :=
  (if hit then count_correct else count_incorrect) (count_attempt state).

(** [handle_answer] up to the await of [callback.answer] (lines 211-227):
    the session is looked up, the attempt counted and graded, the toast
    sent.  The coroutine is then suspended, and other handlers may run. *)
Definition answer_until_await (uid : Z) (data : string) : M :=
  fun s =>
    match s !! uid with
    | None => emit (CallbackAnswer ToastStateLost) s
    | Some state =>
        let selected := py_remove "answer_" data in
        match py_getitem (questions state) (current_q_index state) with
        | None => raise IndexError s
        | Some current_q =>
            (update uid count_attempt >>> grade uid selected current_q) s
        end
    end.

(** [handle_answer] once resumed (lines 229-230), for a handler that found
    a session and did not raise: the cursor of the state it holds is moved
    and [send_question] is called.  If the session was removed meanwhile
    the state it holds is no longer in [user_states], and the move is not
    seen there. *)
Definition answer_after_await (w : World) (uid chat_id : Z) : M :=
  update uid next_index >>> send_question w uid chat_id.

(** Two taps of one user, the second taken up while the first waits at its
    await: both handlers run to their await, then the first goes on to its
    end, then the second.  It is used for handlers that find a session
    and do not raise before their await. *)
Definition two_answers_racing (w1 w2 : World) (uid chat1 chat2 : Z)
    (data1 data2 : string) : M :=
  answer_until_await uid data1 >>> answer_until_await uid data2 >>>
  answer_after_await w1 uid chat1 >>> answer_after_await w2 uid chat2.

(** An option that contains ["answer_"] and is the answer. *)
Definition france_doubled : Question :=
  {| question := Some "Capital of France?";
     options := Some ["answer_Paris"; "Berlin"]; answer := Some "answer_Paris" |}.

(** The store once user 1 has been shown that question. *)
Definition doubled_store : gmap Z UserState :=
  {[ 1 := set_last_message 7 (new_state world0 [france_doubled]) ]}.

(** * Properties *)

(** ** The scenario of the two capitals, run *)

Example capitals_start :
  handle (TopicChosen world0 1 1 (TopicData (Some capitals)) "Capitals") ∅
  = {| store := {[ 1 := set_last_message 7 (new_state world0 capitals) ]};
       trace := [SendMessage 1 (MsgQuizStart "Capitals");
                 SendMessage 1 (MsgQuestion 1 "Capital of France?"
                   [option_button "Paris"; option_button "Berlin"; skip_button])];
       raised := None |}.
Proof. vm_compute. reflexivity. Qed.

Example capitals_paris :
  handle (AnswerTapped world0 1 1 "answer_Paris") capitals_store
  = {| store := {[ 1 := set_last_message 7 (graded true
                           (set_last_message 7 (new_state world0 capitals))) ]};
       trace := [CallbackAnswer ToastCorrect;
                 SendMessage 1 (MsgQuestion 2 "Capital of Japan?"
                   [option_button "Tokyo"; option_button "Seoul"; skip_button])];
       raised := None |}.
Proof. vm_compute. reflexivity. Qed.

Example capitals_seoul :
  handle (AnswerTapped world0 1 1 "answer_Seoul")
    (store (handle (AnswerTapped world0 1 1 "answer_Paris") capitals_store))
  = {| store := ∅;
       trace := [CallbackAnswer (ToastIncorrect "Tokyo");
                 SendMessage 1 (MsgSummary 1 1 1 2 0);
                 SendMessage 1 MsgMainMenu];
       raised := None |}.
Proof. vm_compute. reflexivity. Qed.

(** ** The recursion of [send_question], unfolded once *)

Lemma send_question_eq w uid chat_id (s : gmap Z UserState) :
  send_question w uid chat_id s =
  match s !! uid with
  | None => send_main_menu chat_id s
  | Some state =>
      if decide (Z.of_nat (length (questions state)) <= current_q_index state)
      then end_quiz w uid chat_id s
      else match py_getitem (questions state) (current_q_index state) with
           | None => raise IndexError s
           | Some q =>
               if well_formed q
               then present w uid chat_id (current_q_index state) q s
               else after [SendMessage chat_id MsgInvalidQuestion]
                      (send_question w uid chat_id (alter next_index uid s))
           end
  end.
Proof.
  funelim (send_question w uid chat_id s); clear Heqcall;
    repeat match goal with
           | E : ?x = _ |- context [?x] => rewrite E
           end; reflexivity.
Qed.

(** ** Skip-chaining over malformed questions *)

Lemma move_index_0 state : move_index 0 state = state.
Proof. destruct state; unfold move_index; simpl; f_equal; lia. Qed.

Lemma move_index_next k state :
  move_index k (next_index state) = move_index (1 + k) state.
Proof. unfold move_index, next_index; simpl; f_equal; lia. Qed.

Lemma py_getitem_nonneg {A} (l : list A) (i : Z) :
  0 <= i -> py_getitem l i = l !! Z.to_nat i.
Proof. intros Hi. unfold py_getitem. destruct (decide (0 <= i)); [reflexivity | lia]. Qed.

Lemma alter_id_state (f : UserState -> UserState) uid (s : gmap Z UserState) state :
  s !! uid = Some state -> f state = state -> alter f uid s = s.
Proof.
  intros Hs Hf. apply map_eq; intros v.
  destruct (decide (uid = v)) as [<- | Hne].
  - rewrite lookup_alter_eq, Hs; simpl. now rewrite Hf.
  - now rewrite lookup_alter_ne.
Qed.

Lemma alter_alter (f g : UserState -> UserState) uid (s : gmap Z UserState) :
  alter f uid (alter g uid s) = alter (fun x => f (g x)) uid s.
Proof.
  apply map_eq; intros v.
  destruct (decide (uid = v)) as [<- | Hne].
  - rewrite !lookup_alter_eq. now destruct (s !! uid).
  - now rewrite !lookup_alter_ne.
Qed.

Lemma alter_ext_state (f g : UserState -> UserState) uid (s : gmap Z UserState) :
  (forall x, f x = g x) -> alter f uid s = alter g uid s.
Proof.
  intros E. apply map_eq; intros v.
  destruct (decide (uid = v)) as [<- | Hne].
  - rewrite !lookup_alter_eq. destruct (s !! uid); simpl; [now rewrite E | reflexivity].
  - now rewrite !lookup_alter_ne.
Qed.

Lemma after_nil r : after [] r = r.
Proof. now destruct r. Qed.

Lemma after_after p1 p2 r : after p1 (after p2 r) = after (p1 ++ p2) r.
Proof. unfold after; simpl. now rewrite app_assoc. Qed.

Lemma drop_lookup_head {A} (l : list A) (i : nat) :
  drop i l = match l !! i with
             | Some x => x :: drop (S i) l
             | None => []
             end.
Proof.
  revert i; induction l as [| a l IH]; intros [| i]; simpl; try reflexivity.
  apply IH.
Qed.

(** Every malformed question at the cursor costs one diagnostic and one
    step of the cursor; the recursion then goes on from where the run of
    malformed questions stops. *)
Lemma skip_chain w uid chat_id :
  forall (n : nat) (s : gmap Z UserState) state,
    s !! uid = Some state ->
    0 <= current_q_index state ->
    to_skip state = n ->
    send_question w uid chat_id s =
    after (replicate n (SendMessage chat_id MsgInvalidQuestion))
      (send_question w uid chat_id (alter (move_index (Z.of_nat n)) uid s)).
Proof.
  induction n as [| n IH]; intros s state Hs Hc Hn.
  - simpl. rewrite after_nil. change (Z.of_nat 0) with 0.
    rewrite (alter_id_state (move_index 0) uid s state Hs (move_index_0 state)).
    reflexivity.
  - unfold to_skip in Hn.
    rewrite drop_lookup_head in Hn.
    destruct (questions state !! Z.to_nat (current_q_index state)) as [q |] eqn:Hq;
      [| discriminate].
    simpl in Hn. destruct (well_formed q) eqn:Hwf; [discriminate |].
    injection Hn as Hn.
    pose proof (lookup_lt_Some _ _ _ Hq) as Hlt.
    rewrite send_question_eq, Hs.
    destruct (decide _) as [Hge | _]; [lia |].
    rewrite py_getitem_nonneg, Hq, Hwf by assumption.
    rewrite (IH (alter next_index uid s) (next_index state)).
    + rewrite after_after. simpl. do 2 f_equal.
      rewrite alter_alter. apply alter_ext_state. intros x.
      rewrite move_index_next. f_equal. lia.
    + rewrite lookup_alter_eq, Hs. reflexivity.
    + simpl. lia.
    + unfold to_skip. simpl.
      replace (Z.to_nat (current_q_index state + 1))
        with (S (Z.to_nat (current_q_index state))) by lia.
      exact Hn.
Qed.

Lemma malformed_run_le qs : (malformed_run qs <= length qs)%nat.
Proof.
  induction qs as [| q qs IH]; simpl; [lia |].
  destruct (well_formed q); lia.
Qed.

Lemma malformed_run_stop qs :
  match qs !! malformed_run qs with
  | Some q => well_formed q = true
  | None => malformed_run qs = length qs
  end.
Proof.
  induction qs as [| q qs IH]; simpl; [reflexivity |].
  destruct (well_formed q) eqn:E; simpl; [exact E |].
  destruct (qs !! malformed_run qs); [exact IH | now f_equal].
Qed.

Lemma landing_lookup state :
  0 <= current_q_index state ->
  questions (landing state) !! Z.to_nat (current_q_index (landing state))
  = drop (Z.to_nat (current_q_index state)) (questions state) !! to_skip state.
Proof.
  intros Hc. unfold landing; simpl. rewrite lookup_drop. f_equal. lia.
Qed.

Lemma landing_bound state :
  0 <= current_q_index state <= Z.of_nat (length (questions state)) ->
  current_q_index state <= current_q_index (landing state)
  <= Z.of_nat (length (questions state)).
Proof.
  intros Hc. unfold landing, to_skip; simpl.
  pose proof (malformed_run_le
                (drop (Z.to_nat (current_q_index state)) (questions state))) as H.
  rewrite length_drop in H. lia.
Qed.

(** After the skips the cursor is on a well-formed question, or at the end. *)
Lemma landing_stop state :
  0 <= current_q_index state <= Z.of_nat (length (questions state)) ->
  match questions state !! Z.to_nat (current_q_index (landing state)) with
  | Some q => well_formed q = true
  | None => current_q_index (landing state) = Z.of_nat (length (questions state))
  end.
Proof.
  intros Hc.
  change (questions state) with (questions (landing state)) at 1.
  rewrite landing_lookup by lia. unfold to_skip.
  pose proof (malformed_run_stop
                (drop (Z.to_nat (current_q_index state)) (questions state))) as H.
  destruct (_ !! _); [exact H |].
  unfold landing, to_skip; simpl. rewrite H, length_drop. lia.
Qed.

Lemma end_quiz_some w uid chat_id (s : gmap Z UserState) state :
  s !! uid = Some state ->
  end_quiz w uid chat_id s =
  {| store := delete uid s;
     trace := [SendMessage chat_id
                 (MsgSummary (score state) (correct_answers state)
                    (incorrect_answers state) (attempted_questions state)
                    (time_now w - total_time_start state));
               SendMessage chat_id MsgMainMenu];
     raised := None |}.
Proof. intros Hs. unfold end_quiz. rewrite Hs. reflexivity. Qed.

Lemma end_quiz_none w uid chat_id (s : gmap Z UserState) :
  s !! uid = None ->
  end_quiz w uid chat_id s = {| store := s; trace := []; raised := None |}.
Proof.
  intros Hs. unfold end_quiz. rewrite Hs. unfold skip.
  now rewrite delete_id.
Qed.

Lemma present_well_formed w uid chat_id idx q (s : gmap Z UserState) :
  well_formed q = true ->
  exists body opts,
    question q = Some body /\ options q = Some opts /\
    present w uid chat_id idx q s =
    {| store := alter (set_last_message (sent_message_id w)) uid s;
       trace := [SendMessage chat_id
                   (MsgQuestion (idx + 1) body
                      (map option_button opts ++ [skip_button]))];
       raised := None |}.
Proof.
  unfold well_formed, present. intros H.
  destruct (question q) as [body |]; [| discriminate].
  destruct (options q) as [opts |]; [| discriminate].
  exists body, opts. repeat split.
Qed.

(** [send_question] in closed form: the diagnostics of the skipped
    questions, then the summary at the end of the list or the next
    well-formed question. *)
Lemma send_question_lands w uid chat_id (s : gmap Z UserState) state :
  s !! uid = Some state ->
  0 <= current_q_index state ->
  send_question w uid chat_id s =
  after (replicate (to_skip state) (SendMessage chat_id MsgInvalidQuestion))
    (match questions state !! Z.to_nat (current_q_index (landing state)) with
     | Some q => present w uid chat_id (current_q_index (landing state)) q
                   (<[uid:=landing state]> s)
     | None => end_quiz w uid chat_id (<[uid:=landing state]> s)
     end).
Proof.
  intros Hs Hc.
  rewrite (skip_chain w uid chat_id (to_skip state) s state Hs Hc eq_refl).
  f_equal.
  assert (alter (move_index (Z.of_nat (to_skip state))) uid s
          = <[uid:=landing state]> s) as ->.
  { apply map_eq; intros v. destruct (decide (uid = v)) as [<- | Hne].
    - now rewrite lookup_alter_eq, lookup_insert_eq, Hs.
    - now rewrite lookup_alter_ne, lookup_insert_ne. }
  rewrite send_question_eq, lookup_insert_eq.
  assert (0 <= current_q_index (landing state)) as Hc'
    by (unfold landing; simpl; lia).
  change (questions (landing state)) with (questions state).
  rewrite py_getitem_nonneg by assumption.
  destruct (questions state !! Z.to_nat (current_q_index (landing state)))
    as [q |] eqn:Hq.
  - pose proof (lookup_lt_Some _ _ _ Hq) as Hlt.
    destruct (decide _) as [Hge | _]; [lia |].
    assert (well_formed q = true) as ->; [| reflexivity].
    assert (questions (landing state) !! Z.to_nat (current_q_index (landing state))
            = Some q) as Hq' by exact Hq.
    rewrite landing_lookup in Hq' by assumption.
    pose proof (malformed_run_stop
                  (drop (Z.to_nat (current_q_index state)) (questions state))) as H.
    unfold to_skip in Hq'. now rewrite Hq' in H.
  - apply lookup_ge_None in Hq.
    destruct (decide _) as [_ | Hlt]; [reflexivity | lia].
Qed.

(** ** Sessions at rest *)

(** What [send_question] leaves behind for a session whose cursor is
    within the list or at its end: no exception, the other sessions as
    they were, and this one either removed with its summary sent (the
    cursor having reached the length of the list) or poised on the next
    well-formed question with its counters untouched. *)
Lemma send_question_outcome w uid chat_id (s : gmap Z UserState) state :
  s !! uid = Some state ->
  0 <= current_q_index state <= Z.of_nat (length (questions state)) ->
  let r := send_question w uid chat_id s in
  raised r = None /\
  (forall v, v <> uid -> store r !! v = s !! v) /\
  ((store r !! uid = None /\
    current_q_index (landing state) = Z.of_nat (length (questions state)) /\
    trace r = (replicate (to_skip state) (SendMessage chat_id MsgInvalidQuestion)
               ++ [SendMessage chat_id
                     (MsgSummary (score state) (correct_answers state)
                        (incorrect_answers state) (attempted_questions state)
                        (time_now w - total_time_start state));
                   SendMessage chat_id MsgMainMenu])%list)
   \/
   (store r !! uid = Some (set_last_message (sent_message_id w) (landing state)) /\
    poised (landing state) /\
    current_q_index (landing state) < Z.of_nat (length (questions state)))).
Proof.
  intros Hs Hc r. subst r.
  rewrite (send_question_lands w uid chat_id s state Hs) by lia.
  pose proof (landing_stop state Hc) as Hstop.
  pose proof (landing_bound state Hc) as Hb.
  destruct (questions state !! Z.to_nat (current_q_index (landing state)))
    as [q |] eqn:Hq.
  - destruct (present_well_formed w uid chat_id
                (current_q_index (landing state)) q
                (<[uid:=landing state]> s) Hstop)
      as (body & opts & _ & _ & ->).
    cbn [store trace raised after]. split; [reflexivity |]. split.
    + intros v Hv. now rewrite lookup_alter_ne, lookup_insert_ne by congruence.
    + right. rewrite lookup_alter_eq, lookup_insert_eq.
      split; [reflexivity |].
      pose proof (lookup_lt_Some _ _ _ Hq) as Hlt.
      split; [| lia].
      split; [lia |]. exists q. split; [exact Hq | exact Hstop].
  - rewrite (end_quiz_some w uid chat_id _ (landing state))
      by apply lookup_insert_eq.
    cbn [store trace raised after]. split; [reflexivity |]. split.
    + intros v Hv. now rewrite lookup_delete_ne, lookup_insert_ne by congruence.
    + left. rewrite lookup_delete_eq. repeat split; assumption.
Qed.

Lemma alter_insert_state (f : UserState -> UserState) uid (s : gmap Z UserState) state :
  s !! uid = Some state -> alter f uid s = <[uid:=f state]> s.
Proof.
  intros Hs. apply map_eq; intros v. destruct (decide (uid = v)) as [<- | Hne].
  - now rewrite lookup_alter_eq, lookup_insert_eq, Hs.
  - now rewrite lookup_alter_ne, lookup_insert_ne.
Qed.

Lemma insert_insert_state uid (s : gmap Z UserState) (a b : UserState) :
  <[uid:=a]> (<[uid:=b]> s) = <[uid:=a]> s.
Proof. apply insert_insert_eq. Qed.

(** [handle_answer] on a session whose current question has an answer:
    one toast, the grading, one step of the cursor, then [send_question]. *)
Lemma handle_answer_graded w uid chat_id data (s : gmap Z UserState) state q expected :
  s !! uid = Some state ->
  py_getitem (questions state) (current_q_index state) = Some q ->
  answer q = Some expected ->
  let hit := String.eqb (py_remove "answer_" data) expected in
  handle_answer w uid chat_id data s =
  after [CallbackAnswer (if hit then ToastCorrect else ToastIncorrect expected)]
    (send_question w uid chat_id (<[uid:=graded hit state]> s)).
Proof.
  intros Hs Hq Ha hit. subst hit.
  unfold handle_answer. rewrite Hs, Hq.
  unfold grade. rewrite Ha.
  unfold seq at 1. cbn [update raised store trace].
  rewrite (alter_insert_state count_attempt uid s state Hs).
  unfold graded.
  destruct (String.eqb (py_remove "answer_" data) expected).
  - unfold seq, update, emit. cbn [raised store trace after].
    rewrite (alter_insert_state count_correct uid _ (count_attempt state))
      by apply lookup_insert_eq.
    rewrite (alter_insert_state next_index uid _ (count_correct (count_attempt state)))
      by apply lookup_insert_eq.
    rewrite !insert_insert_state.
    unfold after; cbn [raised store trace]. reflexivity.
  - unfold seq, update, emit. cbn [raised store trace after].
    rewrite (alter_insert_state count_incorrect uid _ (count_attempt state))
      by apply lookup_insert_eq.
    rewrite (alter_insert_state next_index uid _ (count_incorrect (count_attempt state)))
      by apply lookup_insert_eq.
    rewrite !insert_insert_state.
    unfold after; cbn [raised store trace]. reflexivity.
Qed.

(** ** The shuffle *)

Lemma swap_Permutation {A} (x : list A) i j : swap x i j ≡ₚ x.
Proof.
  unfold swap.
  destruct (x !! i) as [a |] eqn:Hi; [| reflexivity].
  destruct (x !! j) as [b |] eqn:Hj; [| reflexivity].
  now apply Permutation_insert_swap.
Qed.

Lemma shuffle_from_Permutation {A} rnd i : forall x : list A, shuffle_from rnd i x ≡ₚ x.
Proof.
  induction i as [| i IH]; intros x; simpl; [reflexivity |].
  rewrite IH. apply swap_Permutation.
Qed.

Lemma shuffle_Permutation {A} rnd (x : list A) : shuffle rnd x ≡ₚ x.
Proof. apply shuffle_from_Permutation. Qed.

Lemma shuffle_length {A} rnd (x : list A) : length (shuffle rnd x) = length x.
Proof. apply Permutation_length, shuffle_Permutation. Qed.

(** ** Starting a quiz *)

(** With a non-empty list the session is stored, the title is sent, and
    [send_question] takes over; nothing reaches the [except] branch. *)
Lemma start_quiz_nonempty w uid chat_id qs title (s : gmap Z UserState) :
  qs <> [] ->
  start_quiz_from_file w uid chat_id (TopicData (Some qs)) title s =
  after [SendMessage chat_id (MsgQuizStart title)]
    (send_question w uid chat_id
       (<[uid:=new_state w (shuffle (randbelow w) qs)]> s)).
Proof.
  intros Hne. unfold start_quiz_from_file, try_except.
  destruct qs as [| q qs']; [congruence |].
  change (default [] (Some (q :: qs'))) with (q :: qs').
  cbv beta iota.
  set (st := new_state w (shuffle (randbelow w) (q :: qs'))).
  unfold seq at 1. cbn [assign raised store trace].
  unfold seq at 1. cbn [emit raised store trace].
  rewrite after_nil.
  destruct (send_question_outcome w uid chat_id (<[uid:=st]> s) st
              (lookup_insert_eq _ _ _)) as (Hraise & _).
  { subst st; simpl. lia. }
  cbn [after raised]. now rewrite Hraise.
Qed.

(** With an empty list, or without the ["questions"] key, the store is
    not touched. *)
Lemma start_quiz_empty w uid chat_id qf title (s : gmap Z UserState) :
  default [] qf = [] ->
  start_quiz_from_file w uid chat_id (TopicData qf) title s =
  {| store := s;
     trace := [SendMessage chat_id MsgNoQuestions; SendMessage chat_id MsgMainMenu];
     raised := None |}.
Proof.
  intros E. unfold start_quiz_from_file, try_except. rewrite E. reflexivity.
Qed.

(** ** An answer on a question without its answer *)

(** [handle_answer] reads ["answer"] at line 221, after line 220 has
    counted the attempt and before anything is sent. *)
Lemma handle_answer_without_answer w uid chat_id data (s : gmap Z UserState) state q :
  s !! uid = Some state ->
  py_getitem (questions state) (current_q_index state) = Some q ->
  answer q = None ->
  handle_answer w uid chat_id data s
  = {| store := <[uid:=count_attempt state]> s; trace := []; raised := Some KeyError |}.
Proof.
  intros Hs Hq Ha. unfold handle_answer. rewrite Hs, Hq.
  unfold seq at 1. cbn [update raised store trace].
  unfold seq at 1. unfold grade. rewrite Ha.
  cbn [raise raised store trace after app].
  now rewrite (alter_insert_state count_attempt uid s state Hs).
Qed.

(** ** Each operation is confined to the session of its user *)

Lemma confined_emit uid o : confined uid (emit o).
Proof. intros s v _. reflexivity. Qed.

Lemma confined_raise uid e : confined uid (raise e).
Proof. intros s v _. reflexivity. Qed.

Lemma confined_update uid f : confined uid (update uid f).
Proof. intros s v Hv. cbn [update store]. now rewrite lookup_alter_ne. Qed.

Lemma confined_assign uid state : confined uid (assign uid state).
Proof. intros s v Hv. cbn [assign store]. now rewrite lookup_insert_ne. Qed.

Lemma confined_seq uid m1 m2 :
  confined uid m1 -> confined uid m2 -> confined uid (m1 >>> m2).
Proof.
  intros H1 H2 s v Hv. unfold seq.
  destruct (raised (m1 s)); [now apply H1 |].
  cbn [after store]. rewrite H2 by assumption. now apply H1.
Qed.

Lemma confined_try_except uid body handler :
  confined uid body -> confined uid handler -> confined uid (try_except body handler).
Proof.
  intros H1 H2 s v Hv. unfold try_except.
  destruct (raised (body s)); [| now apply H1].
  cbn [after store]. rewrite H2 by assumption. now apply H1.
Qed.

Lemma confined_end_quiz w uid chat_id : confined uid (end_quiz w uid chat_id).
Proof.
  intros s v Hv. unfold end_quiz.
  destruct (s !! uid); cbn; now rewrite lookup_delete_ne.
Qed.

Lemma confined_present w uid chat_id idx q : confined uid (present w uid chat_id idx q).
Proof.
  unfold present. destruct (question q); [| apply confined_raise].
  destruct (options q); [| apply confined_raise].
  apply confined_seq; [apply confined_emit | apply confined_update].
Qed.

Lemma confined_send_question w uid chat_id : confined uid (send_question w uid chat_id).
Proof.
  intros s. funelim (send_question w uid chat_id s); intros v Hv; clear Heqcall.
  - reflexivity.
  - now apply confined_end_quiz.
  - reflexivity.
  - now apply confined_present.
  - cbn [after store]. rewrite H by assumption. now rewrite lookup_alter_ne.
Qed.

Lemma confined_grade uid selected q : confined uid (grade uid selected q).
Proof.
  unfold grade. destruct (answer q); [| apply confined_raise].
  destruct (String.eqb selected s);
    (apply confined_seq; [apply confined_update | apply confined_emit]).
Qed.

Lemma confined_handle_answer w uid chat_id data :
  confined uid (handle_answer w uid chat_id data).
Proof.
  intros s v Hv. unfold handle_answer.
  destruct (s !! uid) as [state |]; [| reflexivity].
  destruct (py_getitem _ _) as [q |]; [| reflexivity].
  revert s v Hv.
  change (confined uid (update uid count_attempt >>>
                        grade uid (py_remove "answer_" data) q >>>
                        update uid next_index >>> send_question w uid chat_id)).
  repeat apply confined_seq;
    auto using confined_update, confined_grade, confined_send_question.
Qed.

Lemma confined_skip_question w uid chat_id : confined uid (skip_question w uid chat_id).
Proof.
  intros s v Hv. unfold skip_question.
  destruct (s !! uid) as [state |]; [| reflexivity].
  revert s v Hv.
  change (confined uid (update uid next_index >>> send_question w uid chat_id)).
  apply confined_seq; auto using confined_update, confined_send_question.
Qed.

Lemma confined_start_quiz w uid chat_id file topic_title :
  confined uid (start_quiz_from_file w uid chat_id file topic_title).
Proof.
  unfold start_quiz_from_file. apply confined_try_except.
  - destruct file as [| qf]; [apply confined_raise |].
    destruct (default [] qf).
    + apply confined_seq; apply confined_emit.
    + repeat apply confined_seq;
        auto using confined_assign, confined_emit, confined_send_question.
  - apply confined_seq; apply confined_emit.
Qed.

Lemma confined_handle e : confined (event_user e) (handle e).
Proof.
  destruct e; simpl.
  - apply confined_start_quiz.
  - apply confined_handle_answer.
  - apply confined_skip_question.
Qed.

(** * The claims *)

(** ** Starting a quiz *)

(** C7.  For a non-empty question list, [start_quiz_from_file] stores for
    the user a state whose questions are a permutation of the loaded list,
    of the same length, with the cursor and the four counters at 0,
    whatever the store held for that user before; it then sends the title
    and calls [send_question] on that store.  A session still in the store
    when the handler returns has all its counters at 0. *)
Theorem start_quiz_fresh_session w uid chat_id qs title (s : gmap Z UserState) :
  qs <> [] ->
  let fresh := new_state w (shuffle (randbelow w) qs) in
  let r := start_quiz_from_file w uid chat_id (TopicData (Some qs)) title s in
  r = after [SendMessage chat_id (MsgQuizStart title)]
        (send_question w uid chat_id (<[uid:=fresh]> s)) /\
  (<[uid:=fresh]> s) !! uid = Some fresh /\
  length (questions fresh) = length qs /\
  questions fresh ≡ₚ qs /\
  current_q_index fresh = 0 /\
  score fresh = 0 /\ correct_answers fresh = 0 /\
  incorrect_answers fresh = 0 /\ attempted_questions fresh = 0 /\
  (forall state', store r !! uid = Some state' ->
     questions state' = questions fresh /\
     score state' = 0 /\ correct_answers state' = 0 /\
     incorrect_answers state' = 0 /\ attempted_questions state' = 0) /\
  (forall v, v <> uid -> store r !! v = s !! v).
Proof.
  intros Hne fresh r.
  assert (r = after [SendMessage chat_id (MsgQuizStart title)]
                (send_question w uid chat_id (<[uid:=fresh]> s))) as E
    by (apply start_quiz_nonempty; exact Hne).
  split; [exact E |].
  split; [apply lookup_insert_eq |].
  split; [apply shuffle_length |].
  split; [apply shuffle_Permutation |].
  do 5 (split; [reflexivity |]).
  destruct (send_question_outcome w uid chat_id (<[uid:=fresh]> s) fresh
              (lookup_insert_eq _ _ _)) as (_ & Hother & Hmine).
  { subst fresh; simpl. lia. }
  split.
  - intros state' Hst'. rewrite E in Hst'. cbn [after store] in Hst'.
    destruct Hmine as [(Hnone & _) | (Hsome & _)]; [congruence |].
    rewrite Hsome in Hst'. injection Hst' as <-.
    subst fresh. simpl. tauto.
  - intros v Hv. rewrite E. cbn [after store].
    rewrite Hother by assumption. now rewrite lookup_insert_ne.
Qed.

Lemma start_quiz_fresh_session_witness :
  let r := start_quiz_from_file world0 1 1 (TopicData (Some capitals)) "Capitals"
             capitals_store in
  r = after [SendMessage 1 (MsgQuizStart "Capitals")]
        (send_question world0 1 1
           (<[1:=new_state world0 (shuffle (randbelow world0) capitals)]>
              capitals_store)) /\
  shuffle (randbelow world0) capitals ≡ₚ capitals.
Proof.
  destruct (start_quiz_fresh_session world0 1 1 capitals "Capitals" capitals_store)
    as (E & _ & _ & Hperm & _).
  - discriminate.
  - split; [exact E | exact Hperm].
Defined.

(** ** An empty topic *)

(** C5, as stated, fails: a topic without a single well-formed question,
    but not empty, does start a quiz.  The session is created, the blank
    question is skipped with its diagnostic, and a summary is sent; the
    message for an empty topic is not. *)
Lemma start_quiz_blank_topic :
  let r := start_quiz_from_file world0 1 1 (TopicData (Some [blank])) "Blank" ∅ in
  well_formed blank = false /\
  r = {| store := ∅;
         trace := [SendMessage 1 (MsgQuizStart "Blank");
                   SendMessage 1 MsgInvalidQuestion;
                   SendMessage 1 (MsgSummary 0 0 0 0 0);
                   SendMessage 1 MsgMainMenu];
         raised := None |} /\
  ~ In (SendMessage 1 MsgNoQuestions) (trace r).
Proof.
  assert (start_quiz_from_file world0 1 1 (TopicData (Some [blank])) "Blank" ∅ =
          {| store := ∅;
             trace := [SendMessage 1 (MsgQuizStart "Blank");
                       SendMessage 1 MsgInvalidQuestion;
                       SendMessage 1 (MsgSummary 0 0 0 0 0);
                       SendMessage 1 MsgMainMenu];
             raised := None |}) as E by (vm_compute; reflexivity).
  cbv zeta. split; [reflexivity |]. split; [exact E |].
  rewrite E. cbn [trace]. intros H.
  repeat (destruct H as [H | H]; [discriminate |]). exact H.
Qed.

(** C5, amended.  When the loaded list is empty, or the topic has no
    ["questions"] key, [start_quiz_from_file] creates no session: it
    leaves the store as it was, so a user without a session still has
    none, and sends the message for a topic without questions followed by
    the main menu. *)
Theorem start_quiz_empty_topic w uid chat_id questions_field title (s : gmap Z UserState) :
  questions_field = None \/ questions_field = Some [] ->
  let r := start_quiz_from_file w uid chat_id (TopicData questions_field) title s in
  store r = s /\
  (s !! uid = None -> store r !! uid = None) /\
  trace r = [SendMessage chat_id MsgNoQuestions; SendMessage chat_id MsgMainMenu] /\
  raised r = None.
Proof.
  intros Hempty r. subst r.
  rewrite start_quiz_empty by (destruct Hempty as [-> | ->]; reflexivity).
  cbn [store trace raised]. auto.
Qed.

Lemma start_quiz_empty_topic_witness :
  store (start_quiz_from_file world0 2 2 (TopicData (Some [])) "Empty" capitals_store)
  = capitals_store /\
  trace (start_quiz_from_file world0 2 2 (TopicData (Some [])) "Empty" capitals_store)
  = [SendMessage 2 MsgNoQuestions; SendMessage 2 MsgMainMenu].
Proof.
  destruct (start_quiz_empty_topic world0 2 2 (Some []) "Empty" capitals_store)
    as (Hstore & _ & Htrace & _).
  - right. reflexivity.
  - split; [exact Hstore | exact Htrace].
Defined.

(** ** Events for a user without a session *)

(** C8, as stated, fails for the skip event: [skip_question] for a user
    without a session does nothing at all; nothing is reported to the
    caller, while [handle_answer] does report the lost state. *)
Lemma skip_question_silent :
  (∅ : gmap Z UserState) !! 1 = None /\
  skip_question world0 1 1 ∅ = {| store := ∅; trace := []; raised := None |} /\
  handle_answer world0 1 1 "answer_Paris" ∅ =
  {| store := ∅; trace := [CallbackAnswer ToastStateLost]; raised := None |}.
Proof. repeat split. Qed.

(** C8, amended.  For a user without a session, [end_quiz],
    [handle_answer] and [skip_question] leave the whole store as it was
    and raise nothing.  [end_quiz] sends nothing, and so does a second
    [end_quiz] after any first one, the store staying as the first left
    it.  [handle_answer] reports the lost state to the caller;
    [skip_question] reports nothing. *)
Theorem no_session_no_change w uid chat_id data (s : gmap Z UserState) :
  s !! uid = None ->
  end_quiz w uid chat_id s = {| store := s; trace := []; raised := None |} /\
  handle_answer w uid chat_id data s =
    {| store := s; trace := [CallbackAnswer ToastStateLost]; raised := None |} /\
  skip_question w uid chat_id s = {| store := s; trace := []; raised := None |} /\
  (forall s0 : gmap Z UserState,
     let s1 := store (end_quiz w uid chat_id s0) in
     s1 !! uid = None /\
     end_quiz w uid chat_id s1 = {| store := s1; trace := []; raised := None |}).
Proof.
  intros Hs.
  split; [now apply end_quiz_none |].
  split; [unfold handle_answer; now rewrite Hs |].
  split; [unfold skip_question; now rewrite Hs |].
  intros s0 s1.
  assert (s1 !! uid = None) as Hgone.
  { subst s1. unfold end_quiz. destruct (s0 !! uid); cbn; apply lookup_delete_eq. }
  split; [exact Hgone | now apply end_quiz_none].
Qed.

Lemma no_session_no_change_witness :
  handle_answer world0 2 2 "answer_Tokyo" capitals_store =
    {| store := capitals_store; trace := [CallbackAnswer ToastStateLost];
       raised := None |} /\
  skip_question world0 2 2 capitals_store =
    {| store := capitals_store; trace := []; raised := None |}.
Proof.
  destruct (no_session_no_change world0 2 2 "answer_Tokyo" capitals_store)
    as (_ & Ha & Hk & _).
  - reflexivity.
  - split; [exact Ha | exact Hk].
Defined.

(** ** No exception on malformed questions *)

(** C2 at its failing input.  [handle_answer] does not test the keys of
    the question at the cursor, as [send_question] does at line 102.  In a
    state whose cursor is on a question without ["answer"] it raises
    [KeyError], attempted_questions being already counted. *)
Lemma handle_answer_raises_on_malformed :
  flawed_store !! 1 = Some (new_state world0 [france_without_answer; japan]) /\
  handle_answer world0 1 1 "answer_Paris" flawed_store =
  {| store := {[ 1 := count_attempt (new_state world0 [france_without_answer; japan]) ]};
     trace := [];
     raised := Some KeyError |}.
Proof. split; [reflexivity |]. vm_compute. reflexivity. Qed.

(** ** An answer that is not among the options *)

(** The test of line 102 looks at the presence of the three keys only:
    it asks neither that the answer be one of the options nor that there
    be any option. *)
Lemma well_formed_presence q :
  well_formed q = true <->
  (exists body, question q = Some body) /\
  (exists opts, options q = Some opts) /\
  (exists expected, answer q = Some expected).
Proof.
  unfold well_formed. split.
  - destruct (question q), (options q), (answer q); try discriminate.
    intros _. split; [| split]; eexists; reflexivity.
  - intros ((body & ->) & (opts & ->) & (expected & ->)). reflexivity.
Qed.

(** Whenever the string recovered from the callback data is one of the
    options, and the answer is not, the toast is the incorrect one. *)
Lemma outside_answer_graded_incorrect w uid chat_id data
    (s : gmap Z UserState) state q opts expected :
  s !! uid = Some state ->
  py_getitem (questions state) (current_q_index state) = Some q ->
  options q = Some opts ->
  answer q = Some expected ->
  ~ In expected opts ->
  In (py_remove "answer_" data) opts ->
  exists rest,
    trace (handle_answer w uid chat_id data s)
    = CallbackAnswer (ToastIncorrect expected) :: rest.
Proof.
  intros Hs Hq Ho Ha Hout Hin.
  pose proof (handle_answer_graded w uid chat_id data s state q expected Hs Hq Ha) as E.
  cbv zeta in E. rewrite E.
  destruct (String.eqb_spec (py_remove "answer_" data) expected) as [Heq | Hneq].
  - rewrite Heq in Hin. contradiction.
  - cbn [after trace]. eexists. reflexivity.
Qed.

Lemma remove_from_absent old s :
  occurs old s = false -> remove_from old 0 s = s.
Proof.
  induction s as [| c s IH]; intros H; [reflexivity |].
  cbn [occurs] in H. apply orb_false_iff in H as (Hp & Hs).
  cbn [remove_from]. rewrite Hp, (IH Hs). reflexivity.
Qed.

(** What [handle_answer] recovers from the data of an option's button is
    the option with every ["answer_"] deleted; it is the option itself
    when the option does not contain ["answer_"]. *)
Lemma selected_of_button option :
  py_remove "answer_" (callback_data (option_button option))
  = py_remove "answer_" option.
Proof. reflexivity. Qed.

Lemma button_round_trip option :
  occurs "answer_" option = false ->
  py_remove "answer_" (callback_data (option_button option)) = option.
Proof.
  intros H. rewrite selected_of_button. now apply remove_from_absent.
Qed.

(** So, for options that do not contain ["answer_"], a question whose
    answer is not among its options is graded incorrect on every button. *)
Lemma option_tap_graded_incorrect w uid chat_id option
    (s : gmap Z UserState) state q opts expected :
  s !! uid = Some state ->
  py_getitem (questions state) (current_q_index state) = Some q ->
  options q = Some opts ->
  answer q = Some expected ->
  ~ In expected opts ->
  In option opts ->
  occurs "answer_" option = false ->
  exists rest,
    trace (handle_answer w uid chat_id (callback_data (option_button option)) s)
    = CallbackAnswer (ToastIncorrect expected) :: rest.
Proof.
  intros Hs Hq Ho Ha Hout Hin Hclean.
  apply (outside_answer_graded_incorrect w uid chat_id _ s state q opts expected);
    try assumption.
  now rewrite button_round_trip.
Qed.

(** C10 at its failing input.  ["Paris"] is not one of the options
    ["answer_Paris"] and ["Berlin"], and the question is presented with
    these two buttons.  The button of the first option carries
    ["answer_answer_Paris"]; [replace] deletes both occurrences of
    ["answer_"], the selected string is ["Paris"], and the tap is graded
    correct. *)
Lemma prefixed_option_graded_correct :
  ~ In "Paris" ["answer_Paris"; "Berlin"] /\
  trace (send_question world0 1 1 {[ 1 := new_state world0 [france_prefixed] ]})
  = [SendMessage 1 (MsgQuestion 1 "Capital of France?"
       [option_button "answer_Paris"; option_button "Berlin"; skip_button])] /\
  callback_data (option_button "answer_Paris") = "answer_answer_Paris" /\
  py_remove "answer_" "answer_answer_Paris" = "Paris" /\
  handle_answer world0 1 1 (callback_data (option_button "answer_Paris")) prefixed_store
  = {| store := ∅;
       trace := [CallbackAnswer ToastCorrect;
                 SendMessage 1 (MsgSummary 1 1 0 1 0);
                 SendMessage 1 MsgMainMenu];
       raised := None |}.
Proof.
  split.
  - intros [H | [H | H]]; [discriminate | discriminate | exact H].
  - repeat split; vm_compute; reflexivity.
Qed.

(** ** An option that is the answer and contains the prefix *)

(** C1 at its failing input.  The first option, ["answer_Paris"], is
    exactly the answer of the question.  Its button carries
    ["answer_answer_Paris"]; [replace] deletes both occurrences of
    ["answer_"], the string compared with the answer is ["Paris"], and the
    tap on the right option is graded incorrect: incorrect_answers and
    attempted_questions are 1 and the score is 0 in the summary. *)
Lemma matching_option_graded_incorrect :
  answer france_doubled = Some "answer_Paris" /\
  In "answer_Paris" ["answer_Paris"; "Berlin"] /\
  callback_data (option_button "answer_Paris") = "answer_answer_Paris" /\
  py_remove "answer_" "answer_answer_Paris" = "Paris" /\
  handle_answer world0 1 1 (callback_data (option_button "answer_Paris")) doubled_store
  = {| store := ∅;
       trace := [CallbackAnswer (ToastIncorrect "answer_Paris");
                 SendMessage 1 (MsgSummary 0 0 1 1 0);
                 SendMessage 1 MsgMainMenu];
       raised := None |}.
Proof.
  split; [reflexivity |]. split; [left; reflexivity |].
  repeat split; vm_compute; reflexivity.
Qed.

(** ** An attempt counted on a malformed question *)

(** C3 at its failing input.  The session is in progress, its cursor on a
    question without ["answer"].  [handle_answer] counts the attempt at
    line 220 and raises at line 221 before either of correct_answers and
    incorrect_answers is counted: the session stays in the store, still in
    progress, with attempted_questions = 1 and correct_answers +
    incorrect_answers = 0. *)
Lemma attempt_counted_but_not_graded :
  let r := handle_answer world0 1 1 "answer_Paris" flawed_store in
  raised r = Some KeyError /\
  exists state,
    store r !! 1 = Some state /\
    current_q_index state < Z.of_nat (length (questions state)) /\
    attempted_questions state = 1 /\
    correct_answers state = 0 /\ incorrect_answers state = 0 /\
    attempted_questions state <> correct_answers state + incorrect_answers state.
Proof.
  cbv zeta. split; [vm_compute; reflexivity |].
  exists (count_attempt (new_state world0 [france_without_answer; japan])).
  split; [vm_compute; reflexivity |].
  repeat split; try reflexivity. simpl. lia.
Qed.

(** C4 at its failing input.  From the same session, the answer that
    raised has left its attempt counted; two skips then take the quiz to
    its end, past the question about Japan, which is shown and skipped.
    The summary reports one attempted question, though the only question
    ever answered is the malformed one: the final count does not exclude
    it. *)
Lemma malformed_entry_counted_in_summary :
  let r1 := handle_answer world0 1 1 "answer_Paris" flawed_store in
  let r2 := skip_question world0 1 1 (store r1) in
  let r3 := skip_question world0 1 1 (store r2) in
  well_formed france_without_answer = false /\
  raised r1 = Some KeyError /\
  trace r2 = [SendMessage 1 (MsgQuestion 2 "Capital of Japan?"
                [option_button "Tokyo"; option_button "Seoul"; skip_button])] /\
  r3 = {| store := ∅;
          trace := [SendMessage 1 (MsgSummary 0 0 0 1 0);
                    SendMessage 1 MsgMainMenu];
          raised := None |}.
Proof. cbv zeta. repeat split; vm_compute; reflexivity. Qed.

(** ** Answers that do not move the cursor *)

(** C6 at its failing input.  An answer on a question without ["answer"]
    raises at line 221, before line 229 moves the cursor.  From the same
    session, whose list has two questions, any number [n] of answer events
    leaves the session in the store with its cursor at 0, short of the
    length of the list, the attempts counted; and the next answer raises
    again. *)
Lemma answers_on_malformed_entry_never_advance (n : nat) :
  let taps :=
    Nat.iter n (fun s => store (handle_answer world0 1 1 "answer_Paris" s))
      flawed_store in
  exists state,
    taps !! 1 = Some state /\
    questions state = [france_without_answer; japan] /\
    current_q_index state = 0 /\
    current_q_index state < Z.of_nat (length (questions state)) /\
    attempted_questions state = Z.of_nat n /\
    raised (handle_answer world0 1 1 "answer_Paris" taps) = Some KeyError.
Proof.
  cbv zeta.
  assert (exists state,
            Nat.iter n (fun s => store (handle_answer world0 1 1 "answer_Paris" s))
              flawed_store !! 1 = Some state /\
            questions state = [france_without_answer; japan] /\
            current_q_index state = 0 /\
            attempted_questions state = Z.of_nat n) as (state & Hs & Hqs & Hc & Hn).
  { induction n as [| n (state & Hs & Hqs & Hc & Hn)].
    - eexists. split; [reflexivity |]. repeat split.
    - exists (count_attempt state). rewrite Nat.iter_succ.
      rewrite (handle_answer_without_answer world0 1 1 "answer_Paris" _ state
                 france_without_answer Hs);
        [| rewrite Hqs, Hc; reflexivity | reflexivity].
      cbn [store]. rewrite lookup_insert_eq.
      split; [reflexivity |]. split; [exact Hqs |]. split; [exact Hc |].
      cbn [count_attempt attempted_questions]. lia. }
  exists state. split; [exact Hs |]. split; [exact Hqs |]. split; [exact Hc |].
  split; [rewrite Hqs, Hc; simpl; lia |]. split; [exact Hn |].
  rewrite (handle_answer_without_answer world0 1 1 "answer_Paris" _ state
             france_without_answer Hs);
    [reflexivity | rewrite Hqs, Hc; reflexivity | reflexivity].
Qed.

(** ** Two answers that race *)

Lemma seq_assoc (m1 m2 m3 : M) (s : gmap Z UserState) :
  ((m1 >>> m2) >>> m3) s = (m1 >>> (m2 >>> m3)) s.
Proof.
  unfold seq. destruct (raised (m1 s)) eqn:E1; cbn [after raised store trace].
  - now rewrite E1.
  - destruct (raised (m2 (store (m1 s)))) eqn:E2; cbn [after raised store trace].
    + reflexivity.
    + unfold after; cbn [raised store trace]. now rewrite app_assoc.
Qed.

(** The two parts, run one after the other, are [handle_answer]. *)
Lemma handle_answer_parts w uid chat_id data (s : gmap Z UserState) state :
  s !! uid = Some state ->
  handle_answer w uid chat_id data s
  = (answer_until_await uid data >>> answer_after_await w uid chat_id) s.
Proof.
  intros Hs. unfold handle_answer, answer_after_await.
  unfold seq at 4. unfold answer_until_await. rewrite Hs.
  destruct (py_getitem (questions state) (current_q_index state)) as [q |];
    [| reflexivity].
  change (match raised ((update uid count_attempt >>>
                         grade uid (py_remove "answer_" data) q) s) with
          | Some _ => (update uid count_attempt >>>
                       grade uid (py_remove "answer_" data) q) s
          | None => after (trace ((update uid count_attempt >>>
                                   grade uid (py_remove "answer_" data) q) s))
                      ((update uid next_index >>> send_question w uid chat_id)
                         (store ((update uid count_attempt >>>
                                  grade uid (py_remove "answer_" data) q) s)))
          end)
    with (((update uid count_attempt >>> grade uid (py_remove "answer_" data) q) >>>
           (update uid next_index >>> send_question w uid chat_id)) s).
  now rewrite seq_assoc.
Qed.

(** The first part on a session whose current question has an answer. *)
Lemma answer_until_await_scored uid data (s : gmap Z UserState) state q expected :
  s !! uid = Some state ->
  py_getitem (questions state) (current_q_index state) = Some q ->
  answer q = Some expected ->
  let hit := String.eqb (py_remove "answer_" data) expected in
  answer_until_await uid data s
  = {| store := <[uid:=scored hit state]> s;
       trace := [CallbackAnswer (if hit then ToastCorrect else ToastIncorrect expected)];
       raised := None |}.
Proof.
  intros Hs Hq Ha hit. subst hit. unfold answer_until_await. rewrite Hs, Hq.
  unfold grade. rewrite Ha. unfold seq at 1. cbn [update raised store trace].
  rewrite (alter_insert_state count_attempt uid s state Hs). unfold scored.
  destruct (String.eqb (py_remove "answer_" data) expected);
    unfold seq, update, emit; cbn [raised store trace after];
    rewrite (alter_insert_state _ uid _ (count_attempt state))
      by apply lookup_insert_eq;
    rewrite insert_insert_state; reflexivity.
Qed.

Lemma confined_answer_until_await uid data : confined uid (answer_until_await uid data).
Proof.
  intros s v Hv. unfold answer_until_await.
  destruct (s !! uid) as [state |]; [| reflexivity].
  destruct (py_getitem (questions state) (current_q_index state)) as [q |];
    [| reflexivity].
  revert s v Hv.
  change (confined uid (update uid count_attempt >>>
                        grade uid (py_remove "answer_" data) q)).
  apply confined_seq; [apply confined_update | apply confined_grade].
Qed.

(** C9, as stated, fails: nothing serializes the handlers of a user.  Two
    taps on ["Paris"], the second taken up while the first waits at its
    await, are both graded against the question about France, at cursor
    0; the cursor then moves twice, the question about Japan is shown but
    never answered, and the summary reports a score of 2.  Neither tap
    is answered with the lost state. *)
Lemma racing_answers_both_graded :
  two_answers_racing world0 world0 1 1 1 "answer_Paris" "answer_Paris" capitals_store
  = {| store := ∅;
       trace := [CallbackAnswer ToastCorrect; CallbackAnswer ToastCorrect;
                 SendMessage 1 (MsgQuestion 2 "Capital of Japan?"
                   [option_button "Tokyo"; option_button "Seoul"; skip_button]);
                 SendMessage 1 (MsgSummary 2 2 0 2 0);
                 SendMessage 1 MsgMainMenu];
       raised := None |}.
Proof. vm_compute. reflexivity. Qed.

(** C9, amended.  The handlers of a user are not serialized:
    [handle_answer] counts and grades before its await and moves the
    cursor after it.  When two answers of a user race so that both reach
    their await before either goes on, both are graded against the
    question at the same cursor position, each with its own toast, and
    attempted_questions grows by 2 there while the cursor has not moved;
    the cursor is then moved twice.  Handlers of distinct users do not
    contend: each part of [handle_answer] touches the session of its own
    user only.  Run without the other in between, the two parts are
    [handle_answer] itself. *)
Theorem racing_answers_graded_at_same_cursor w1 w2 uid chat1 chat2 data1 data2
    (s : gmap Z UserState) state q expected :
  s !! uid = Some state ->
  py_getitem (questions state) (current_q_index state) = Some q ->
  answer q = Some expected ->
  let hit1 := String.eqb (py_remove "answer_" data1) expected in
  let hit2 := String.eqb (py_remove "answer_" data2) expected in
  let toast := fun hit : bool => if hit then ToastCorrect else ToastIncorrect expected in
  let both := scored hit2 (scored hit1 state) in
  (answer_until_await uid data1 >>> answer_until_await uid data2) s
  = {| store := <[uid:=both]> s;
       trace := [CallbackAnswer (toast hit1); CallbackAnswer (toast hit2)];
       raised := None |} /\
  current_q_index both = current_q_index state /\
  attempted_questions both = attempted_questions state + 2 /\
  two_answers_racing w1 w2 uid chat1 chat2 data1 data2 s
  = after [CallbackAnswer (toast hit1); CallbackAnswer (toast hit2)]
      ((update uid next_index >>> send_question w1 uid chat1 >>>
        update uid next_index >>> send_question w2 uid chat2) (<[uid:=both]> s)) /\
  confined uid (answer_until_await uid data1) /\
  confined uid (answer_after_await w1 uid chat1) /\
  handle_answer w1 uid chat1 data1 s
  = (answer_until_await uid data1 >>> answer_after_await w1 uid chat1) s.
Proof.
  intros Hs Hq Ha hit1 hit2 toast both.
  pose proof (answer_until_await_scored uid data1 s state q expected Hs Hq Ha) as E1.
  cbv zeta in E1. fold hit1 in E1.
  assert (py_getitem (questions (scored hit1 state)) (current_q_index (scored hit1 state))
          = Some q) as Hq1 by (unfold scored; destruct hit1; exact Hq).
  pose proof (answer_until_await_scored uid data2 (<[uid:=scored hit1 state]> s)
                (scored hit1 state) q expected (lookup_insert_eq _ _ _) Hq1 Ha) as E2.
  cbv zeta in E2. fold hit2 in E2. rewrite insert_insert_state in E2.
  assert ((answer_until_await uid data1 >>> answer_until_await uid data2) s
          = {| store := <[uid:=both]> s;
               trace := [CallbackAnswer (toast hit1); CallbackAnswer (toast hit2)];
               raised := None |}) as Eboth.
  { unfold seq. rewrite E1. cbn [raised store trace]. rewrite E2. reflexivity. }
  split; [exact Eboth |].
  split; [subst both; unfold scored; now destruct hit1, hit2 |].
  split; [subst both; unfold scored; destruct hit1, hit2; simpl; lia |].
  split; [| split; [| split]].
  - unfold two_answers_racing.
    rewrite <- (seq_assoc (answer_until_await uid data1) (answer_until_await uid data2)).
    unfold seq at 1. rewrite Eboth. cbn [raised store trace].
    unfold answer_after_await. f_equal.
    now rewrite seq_assoc.
  - apply confined_answer_until_await.
  - unfold answer_after_await.
    apply confined_seq; [apply confined_update | apply confined_send_question].
  - now apply handle_answer_parts with (state := state).
Qed.

Lemma racing_answers_graded_at_same_cursor_witness :
  (answer_until_await 1 "answer_Paris" >>> answer_until_await 1 "answer_Berlin")
    capitals_store
  = {| store := <[1:=scored false
                       (scored true (set_last_message 7 (new_state world0 capitals)))]>
                  capitals_store;
       trace := [CallbackAnswer ToastCorrect; CallbackAnswer (ToastIncorrect "Paris")];
       raised := None |}.
Proof.
  destruct (racing_answers_graded_at_same_cursor world0 world0 1 1 1
              "answer_Paris" "answer_Berlin" capitals_store
              (set_last_message 7 (new_state world0 capitals))
              {| question := Some "Capital of France?";
                 options := Some ["Paris"; "Berlin"]; answer := Some "Paris" |}
              "Paris") as (E & _).
  - reflexivity.
  - reflexivity.
  - reflexivity.
  - exact E.
Defined.

(** * Further properties *)

(** ** A handler touches the session of its user only *)

(** X1.  Whatever the store holds, and whether the handler raises or not,
    handling an event leaves the session of every other user as it was;
    so any number of events of other users, handled in between, leave a
    user's session (or its absence) exactly as it was. *)
Theorem other_users_events_leave_session :
  (forall e (s : gmap Z UserState) v,
     v <> event_user e -> store (handle e s) !! v = s !! v) /\
  (forall es (s : gmap Z UserState) v,
     Forall (fun e => event_user e <> v) es -> run es s !! v = s !! v).
Proof.
  split.
  - intros e s v Hv. now apply confined_handle.
  - induction es as [| e es IH]; intros s v Hes; simpl; [reflexivity |].
    apply Forall_cons in Hes as (He & Hes).
    rewrite IH by assumption. apply confined_handle. congruence.
Qed.

Lemma other_users_events_leave_session_witness :
  run [AnswerTapped world0 2 2 "answer_Paris"; SkipTapped world0 3 3;
       TopicChosen world0 2 2 (TopicData (Some capitals)) "Capitals"]
    capitals_store !! 1
  = capitals_store !! 1.
Proof.
  destruct other_users_events_leave_session as (_ & Hrun).
  apply Hrun. repeat constructor; discriminate.
Defined.

(** ** The button of the right answer *)



(** ** What [replace] gives back *)

Lemma remove_from_length old : forall s drop,
  (String.length (remove_from old drop s) <= String.length s)%nat.
Proof.
  induction s as [| c s IH]; intros drop; simpl; [lia |].
  destruct drop as [| k].
  - destruct (is_prefix old (String c s)).
    + specialize (IH (String.length old - 1)%nat). lia.
    + simpl. specialize (IH O). lia.
  - specialize (IH k). lia.
Qed.

Lemma remove_from_shorter old s :
  occurs old s = true ->
  old <> EmptyString ->
  (String.length (remove_from old 0 s) < String.length s)%nat.
Proof.
  intros Hocc Hold. induction s as [| c s IH].
  - destruct old; [congruence | discriminate].
  - cbn [occurs] in Hocc. cbn [remove_from].
    destruct (is_prefix old (String c s)) eqn:Hp.
    + pose proof (remove_from_length old s (String.length old - 1)). simpl. lia.
    + simpl in Hocc. specialize (IH Hocc). simpl. lia.
Qed.

(** X8.  [replace] gives back the text of a button exactly when the text
    does not contain the prefix; otherwise what it gives back is shorter.
    So [handle_answer] recovers an option from the data of its button if
    and only if the option does not contain ["answer_"], and
    [start_gk_quiz] and [start_ca_quiz] recover a file name if and only if
    it does not contain ["gk_"], respectively ["ca_"]. *)
Theorem button_data_recovered_iff_prefix_absent :
  (forall option,
     py_remove "answer_" (callback_data (option_button option)) = option <->
     occurs "answer_" option = false) /\
  (forall entry,
     py_remove "gk_" (callback_data (topic_button "gk_" entry)) = fst entry <->
     occurs "gk_" (fst entry) = false) /\
  (forall entry,
     py_remove "ca_" (callback_data (topic_button "ca_" entry)) = fst entry <->
     occurs "ca_" (fst entry) = false) /\
  (forall old s,
     old <> EmptyString -> occurs old s = true ->
     (String.length (py_remove old s) < String.length s)%nat).
Proof.
  assert (forall old s, old <> EmptyString ->
            (py_remove old s = s <-> occurs old s = false)) as Hiff.
  { intros old s Hold. split.
    - intros E. destruct (occurs old s) eqn:Hocc; [| reflexivity].
      pose proof (remove_from_shorter old s Hocc Hold) as Hlt.
      unfold py_remove in E. rewrite E in Hlt. lia.
    - apply remove_from_absent. }
  split; [| split; [| split]].
  - intros option. rewrite selected_of_button. now apply Hiff.
  - intros entry.
    change (py_remove "gk_" (callback_data (topic_button "gk_" entry)))
      with (py_remove "gk_" (fst entry)).
    now apply Hiff.
  - intros entry.
    change (py_remove "ca_" (callback_data (topic_button "ca_" entry)))
      with (py_remove "ca_" (fst entry)).
    now apply Hiff.
  - intros old s Hold Hocc. now apply remove_from_shorter.
Qed.

Lemma button_data_recovered_iff_prefix_absent_witness :
  (String.length (py_remove "gk_" "gk_history.json")
   < String.length "gk_history.json")%nat.
Proof.
  destruct button_data_recovered_iff_prefix_absent as (_ & _ & _ & Hshort).
  apply Hshort; [discriminate | reflexivity].
Defined.

(** ** Which handler a button reaches *)

Lemma route_topic_button prefix filename :
  (prefix = "gk_" \/ prefix = "ca_") ->
  filename <> "menu" ->
  route (prefix ++ filename)
  = Some (if String.eqb prefix "gk_" then start_gk_quiz_h else start_ca_quiz_h).
Proof.
  intros [-> | ->] Hne; unfold route; simpl;
    change (String.append EmptyString filename) with filename;
    apply String.eqb_neq in Hne; now rewrite Hne.
Qed.

(** X9.  With the filters tried in the order of registration, every
    button the bot builds reaches the handler it was built for: an option
    button [handle_answer], the skip button [skip_question], the back
    button [back_to_menu], the two callback keys of the main menu the two
    topic menus, and the button of a topic [start_gk_quiz] or
    [start_ca_quiz], unless the file is named ["menu"], in which case the
    query goes to the topic menu instead. *)
Theorem buttons_reach_their_handlers :
  (forall option, route (callback_data (option_button option)) = Some handle_answer_h) /\
  route (callback_data skip_button) = Some skip_question_h /\
  route (callback_data back_button) = Some back_to_menu_h /\
  (forall label data,
     In (CallbackKey label data) get_main_menu_markup ->
     (label = "GK TOPICS" /\ route data = Some show_gk_topics_h) \/
     (label = "CURRENT AFFAIRS" /\ route data = Some show_ca_topics_h)) /\
  (forall entry,
     route (callback_data (topic_button "gk_" entry))
     = Some (if String.eqb (fst entry) "menu" then show_gk_topics_h
             else start_gk_quiz_h)) /\
  (forall entry,
     route (callback_data (topic_button "ca_" entry))
     = Some (if String.eqb (fst entry) "menu" then show_ca_topics_h
             else start_ca_quiz_h)).
Proof.
  split; [intros option; reflexivity |].
  split; [reflexivity |]. split; [reflexivity |].
  split; [| split].
  - intros label data [H | [H | [H | H]]];
      [injection H as <- <-; left | injection H as <- <-; right
       | discriminate | contradiction]; split; reflexivity.
  - intros [filename topic]. cbn [topic_button callback_data fst].
    destruct (String.eqb_spec filename "menu") as [-> | Hne]; [reflexivity |].
    now rewrite route_topic_button by auto.
  - intros [filename topic]. cbn [topic_button callback_data fst].
    destruct (String.eqb_spec filename "menu") as [-> | Hne]; [reflexivity |].
    now rewrite route_topic_button by auto.
Qed.

Lemma buttons_reach_their_handlers_witness :
  (("GK TOPICS" : string) = "GK TOPICS" /\ route "gk_menu" = Some show_gk_topics_h) \/
  (("GK TOPICS" : string) = "CURRENT AFFAIRS" /\ route "gk_menu" = Some show_ca_topics_h).
Proof.
  destruct buttons_reach_their_handlers as (_ & _ & _ & Hmenu & _).
  apply Hmenu. left. reflexivity.
Defined.

(** ** From the button of a topic to its quiz *)

(** X10.  A tap on the button that a topic menu shows for a cached topic
    whose file name does not contain the prefix of its category starts
    the quiz of that topic: the file at its path is read and the quiz
    carries its title. *)
Theorem topic_button_starts_its_quiz w read cached_topics uid chat_id filename topic :
  (dict_get filename (gk cached_topics) = Some topic ->
   occurs "gk_" filename = false ->
   start_gk_quiz w read cached_topics uid chat_id
     (callback_data (topic_button "gk_" (filename, topic)))
   = start_quiz_from_file w uid chat_id (read (path topic)) (title topic)) /\
  (dict_get filename (ca cached_topics) = Some topic ->
   occurs "ca_" filename = false ->
   start_ca_quiz w read cached_topics uid chat_id
     (callback_data (topic_button "ca_" (filename, topic)))
   = start_quiz_from_file w uid chat_id (read (path topic)) (title topic)).
Proof.
  split; intros Hget Hclean.
  - unfold start_gk_quiz.
    change (py_remove "gk_" (callback_data (topic_button "gk_" (filename, topic))))
      with (remove_from "gk_" 0 filename).
    now rewrite (remove_from_absent _ _ Hclean), Hget.
  - unfold start_ca_quiz.
    change (py_remove "ca_" (callback_data (topic_button "ca_" (filename, topic))))
      with (remove_from "ca_" 0 filename).
    now rewrite (remove_from_absent _ _ Hclean), Hget.
Qed.

Lemma topic_button_starts_its_quiz_witness :
  start_gk_quiz world0 (fun _ => TopicData (Some capitals))
    {| gk := [("capitals.json", {| path := "gk_topics/capitals.json";
                                   title := "Capitals" |})];
       ca := [] |}
    1 1 "gk_capitals.json"
  = start_quiz_from_file world0 1 1 (TopicData (Some capitals)) "Capitals".
Proof.
  destruct (topic_button_starts_its_quiz world0 (fun _ => TopicData (Some capitals))
              {| gk := [("capitals.json", {| path := "gk_topics/capitals.json";
                                             title := "Capitals" |})];
                 ca := [] |}
              1 1 "capitals.json"
              {| path := "gk_topics/capitals.json"; title := "Capitals" |})
    as (Hgk & _).
  apply Hgk; reflexivity.
Defined.

(** X11.  When the file name of a topic contains the prefix of its
    category, the handler looks up another, shorter name.  If no topic is
    cached under that name the tap does nothing at all: the store stays,
    nothing is sent, nothing is raised.  If one is, it is the quiz of that
    other topic that starts. *)
Theorem prefixed_file_name_not_started w read cached_topics uid chat_id filename topic
    (s : gmap Z UserState) :
  (occurs "gk_" filename = true ->
   let asked := py_remove "gk_" filename in
   let tap := start_gk_quiz w read cached_topics uid chat_id
                (callback_data (topic_button "gk_" (filename, topic))) in
   asked <> filename /\
   (dict_get asked (gk cached_topics) = None ->
    tap s = {| store := s; trace := []; raised := None |}) /\
   (forall other, dict_get asked (gk cached_topics) = Some other ->
      tap = start_quiz_from_file w uid chat_id (read (path other)) (title other))) /\
  (occurs "ca_" filename = true ->
   let asked := py_remove "ca_" filename in
   let tap := start_ca_quiz w read cached_topics uid chat_id
                (callback_data (topic_button "ca_" (filename, topic))) in
   asked <> filename /\
   (dict_get asked (ca cached_topics) = None ->
    tap s = {| store := s; trace := []; raised := None |}) /\
   (forall other, dict_get asked (ca cached_topics) = Some other ->
      tap = start_quiz_from_file w uid chat_id (read (path other)) (title other))).
Proof.
  split; intros Hocc asked tap.
  - split; [| split].
    + intros E.
      pose proof (remove_from_shorter "gk_" filename Hocc ltac:(discriminate)) as Hlt.
      unfold asked, py_remove in E. rewrite E in Hlt. lia.
    + intros Hnone. subst tap. unfold start_gk_quiz.
      change (py_remove "gk_" (callback_data (topic_button "gk_" (filename, topic))))
        with asked.
      now rewrite Hnone.
    + intros other Hsome. subst tap. unfold start_gk_quiz.
      change (py_remove "gk_" (callback_data (topic_button "gk_" (filename, topic))))
        with asked.
      now rewrite Hsome.
  - split; [| split].
    + intros E.
      pose proof (remove_from_shorter "ca_" filename Hocc ltac:(discriminate)) as Hlt.
      unfold asked, py_remove in E. rewrite E in Hlt. lia.
    + intros Hnone. subst tap. unfold start_ca_quiz.
      change (py_remove "ca_" (callback_data (topic_button "ca_" (filename, topic))))
        with asked.
      now rewrite Hnone.
    + intros other Hsome. subst tap. unfold start_ca_quiz.
      change (py_remove "ca_" (callback_data (topic_button "ca_" (filename, topic))))
        with asked.
      now rewrite Hsome.
Qed.

Lemma prefixed_file_name_not_started_witness :
  start_ca_quiz world0 (fun _ => TopicData (Some capitals))
    {| gk := [];
       ca := [("ca_january.json", {| path := "current_affairs/ca_january.json";
                                     title := "January" |})] |}
    1 1 "ca_ca_january.json" ∅
  = {| store := ∅; trace := []; raised := None |}.
Proof.
  destruct (prefixed_file_name_not_started world0 (fun _ => TopicData (Some capitals))
              {| gk := [];
                 ca := [("ca_january.json",
                         {| path := "current_affairs/ca_january.json";
                            title := "January" |})] |}
              1 1 "ca_january.json"
              {| path := "current_affairs/ca_january.json"; title := "January" |} ∅)
    as (_ & Hca).
  destruct (Hca eq_refl) as (_ & Hnone & _).
  apply Hnone. reflexivity.
Defined.

(** ** The catalog that [load_topics] builds *)

Lemma dict_set_fresh {V} k (v : V) d :
  dict_get k d = None -> dict_set k v d = (d ++ [(k, v)])%list.
Proof.
  induction d as [| [k' v'] d IH]; simpl; [reflexivity |].
  destruct (String.eqb k' k); [discriminate |].
  intros H. now rewrite IH.
Qed.

Lemma dict_get_app_fresh {V} k k' (v : V) d :
  k' <> k -> dict_get k d = None -> dict_get k (d ++ [(k', v)])%list = None.
Proof.
  intros Hne. induction d as [| [k0 v0] d IH]; simpl.
  - intros _. apply String.eqb_neq in Hne. now rewrite Hne.
  - destruct (String.eqb k0 k); [discriminate | exact IH].
Qed.

Lemma load_file_loadable title_case dir entry d :
  loadable entry = true ->
  fst (load_file title_case dir (fst entry) (snd entry) d)
  = dict_set (fst entry) (snd (cached_entry title_case dir entry)) d.
Proof.
  destruct entry as [filename content]. unfold loadable, load_file. simpl.
  intros H. apply andb_true_iff in H as (-> & H).
  destruct content as [| [t |] [| | qs]]; try discriminate; reflexivity.
Qed.

Lemma load_file_not_loadable title_case dir entry d :
  loadable entry = false ->
  fst (load_file title_case dir (fst entry) (snd entry) d) = d.
Proof.
  destruct entry as [filename content]. unfold loadable, load_file. simpl.
  destruct (ends_with ".json" filename); [| reflexivity].
  destruct content as [| [t |] [| | qs]]; try discriminate; reflexivity.
Qed.

Lemma load_files_cons title_case dir entry files d :
  fst (load_files title_case dir (entry :: files) d)
  = fst (load_files title_case dir files
           (fst (load_file title_case dir (fst entry) (snd entry) d))).
Proof.
  destruct entry as [filename content]. simpl.
  destruct (load_file title_case dir filename content d) as [d1 log1]. simpl.
  now destruct (load_files title_case dir files d1).
Qed.

(** With distinct names, none of them in the dictionary yet, the loadable
    files are appended in the order of the listing. *)
Lemma load_files_appends title_case dir files : forall d,
  NoDup (map fst files) ->
  (forall entry, In entry files -> dict_get (fst entry) d = None) ->
  fst (load_files title_case dir files d)
  = (d ++ map (cached_entry title_case dir) (List.filter loadable files))%list.
Proof.
  induction files as [| entry files IH]; intros d Hnd Hfresh.
  - simpl. now rewrite app_nil_r.
  - rewrite load_files_cons. simpl in Hnd. apply NoDup_cons in Hnd as (Hnew & Hnd).
    cbn [List.filter]. destruct (loadable entry) eqn:Hl.
    + rewrite load_file_loadable by assumption.
      rewrite dict_set_fresh by (apply Hfresh; now left).
      rewrite IH; [| exact Hnd |].
      * cbn [map]. rewrite <- app_assoc. reflexivity.
      * intros e He. apply dict_get_app_fresh; [| apply Hfresh; now right].
        intros E. apply Hnew. rewrite E.
        apply list_elem_of_In, in_map, He.
    + rewrite load_file_not_loadable by assumption.
      apply IH; [exact Hnd |]. intros e He. apply Hfresh. now right.
Qed.

Lemma load_folder_listed title_case disk folder files :
  listdir disk (path_join (cwd disk) folder) = Some files ->
  NoDup (map fst files) ->
  fst (load_folder title_case disk folder)
  = map (cached_entry title_case (path_join (cwd disk) folder))
      (List.filter loadable files).
Proof.
  intros Hls Hnd. unfold load_folder. rewrite Hls.
  now rewrite load_files_appends.
Qed.

Lemma load_topics_catalog title_case disk :
  fst (load_topics title_case disk)
  = {| gk := fst (load_folder title_case disk "gk_topics");
       ca := fst (load_folder title_case disk "current_affairs") |}.
Proof.
  unfold load_topics.
  destruct (load_folder title_case disk "gk_topics").
  now destruct (load_folder title_case disk "current_affairs").
Qed.

(** X12.  When a topic folder is listed with distinct file names,
    [load_topics] caches for its category exactly the files whose name
    ends in [".json"] and which hold an object with a list under
    ["questions"], in the order of the listing, each with its path in the
    folder and the title of the object or else the default made from the
    name; unreadable or invalid files and other names are left out and do
    not disturb the rest.  The topic menu shows one button per cached
    topic, in that order, and then the back button.  A folder that is no
    directory gives an empty category. *)
Theorem load_topics_caches_loadable_files title_case disk :
  (forall files,
     listdir disk (path_join (cwd disk) "gk_topics") = Some files ->
     NoDup (map fst files) ->
     let cached := map (cached_entry title_case (path_join (cwd disk) "gk_topics"))
                     (List.filter loadable files) in
     gk (fst (load_topics title_case disk)) = cached /\
     show_gk_topics (fst (load_topics title_case disk))
     = (map (topic_button "gk_") cached ++ [back_button])%list) /\
  (forall files,
     listdir disk (path_join (cwd disk) "current_affairs") = Some files ->
     NoDup (map fst files) ->
     let cached := map (cached_entry title_case
                          (path_join (cwd disk) "current_affairs"))
                     (List.filter loadable files) in
     ca (fst (load_topics title_case disk)) = cached /\
     show_ca_topics (fst (load_topics title_case disk))
     = (map (topic_button "ca_") cached ++ [back_button])%list) /\
  (listdir disk (path_join (cwd disk) "gk_topics") = None ->
   gk (fst (load_topics title_case disk)) = []) /\
  (listdir disk (path_join (cwd disk) "current_affairs") = None ->
   ca (fst (load_topics title_case disk)) = []).
Proof.
  rewrite load_topics_catalog. cbn [gk ca].
  split; [| split; [| split]].
  - intros files Hls Hnd. cbv zeta.
    unfold show_gk_topics. cbn [gk].
    rewrite (load_folder_listed _ _ _ files Hls Hnd). split; reflexivity.
  - intros files Hls Hnd. cbv zeta.
    unfold show_ca_topics. cbn [ca].
    rewrite (load_folder_listed _ _ _ files Hls Hnd). split; reflexivity.
  - intros Hls. unfold load_folder. now rewrite Hls.
  - intros Hls. unfold load_folder. now rewrite Hls.
Qed.

Lemma sample_files_distinct : NoDup (map fst sample_files).
Proof.
  simpl. repeat (apply NoDup_cons; split);
    rewrite ?not_elem_of_cons; repeat split;
    try discriminate; try apply not_elem_of_nil; apply NoDup_nil_2.
Qed.

Lemma load_topics_caches_loadable_files_witness :
  gk (fst (load_topics (fun s => s) sample_disk))
  = [("capitals.json",
      {| path := "/bot/gk_topics/capitals.json"; title := "Capitals" |})] /\
  ca (fst (load_topics (fun s => s) sample_disk)) = [].
Proof.
  destruct (load_topics_caches_loadable_files (fun s => s) sample_disk)
    as (Hgk & _ & _ & Hca).
  split.
  - apply (Hgk sample_files); [reflexivity | exact sample_files_distinct].
  - apply Hca. reflexivity.
Defined.

(** ** The buttons of the topic menus of a loaded catalog *)

Lemma dict_set_In {V} k (v : V) d k' v' :
  In (k', v') (dict_set k v d) -> (k' = k /\ v' = v) \/ In (k', v') d.
Proof.
  induction d as [| [k0 v0] d IH]; simpl.
  - intros [H | H]; [injection H as <- <-; now left | contradiction].
  - destruct (String.eqb k0 k).
    + intros [H | H]; [injection H as <- <-; now left | right; now right].
    + intros [H | H]; [right; now left |].
      destruct (IH H) as [? | ?]; [now left | right; now right].
Qed.

Lemma load_files_keys title_case dir files : forall d k t,
  In (k, t) (fst (load_files title_case dir files d)) ->
  In (k, t) d \/ ends_with ".json" k = true.
Proof.
  induction files as [| entry files IH]; intros d k t Hin; [now left |].
  rewrite load_files_cons in Hin. apply IH in Hin as [Hin | Hin]; [| now right].
  destruct (loadable entry) eqn:Hl.
  - rewrite load_file_loadable in Hin by assumption.
    apply dict_set_In in Hin as [(-> & _) | Hin]; [right | now left].
    unfold loadable in Hl. now apply andb_true_iff in Hl as (Hl & _).
  - rewrite load_file_not_loadable in Hin by assumption. now left.
Qed.

Lemma load_folder_keys title_case disk folder k t :
  In (k, t) (fst (load_folder title_case disk folder)) -> k <> "menu".
Proof.
  unfold load_folder. destruct (listdir disk _) as [files |]; [| contradiction].
  intros Hin. apply load_files_keys in Hin as [[] | Hjson].
  intros ->. discriminate.
Qed.

(** X13.  In the topic menus of the catalog that [load_topics] builds,
    whatever the folders hold, every button but the last reaches the
    handler that starts a quiz of its category, and the last one is the
    back button: the name of a cached file ends in [".json"], so it is
    never the ["menu"] that the filters of the menus catch. *)
Theorem loaded_menu_buttons_start_quizzes title_case disk :
  (forall b, In b (show_gk_topics (fst (load_topics title_case disk))) ->
     route (callback_data b) = Some start_gk_quiz_h \/ b = back_button) /\
  (forall b, In b (show_ca_topics (fst (load_topics title_case disk))) ->
     route (callback_data b) = Some start_ca_quiz_h \/ b = back_button).
Proof.
  rewrite load_topics_catalog. unfold show_gk_topics, show_ca_topics. cbn [gk ca].
  split; intros b Hin; apply in_app_or in Hin as [Hin | [<- | []]]; try now right.
  - left. apply in_map_iff in Hin as ([k t] & <- & Hin).
    apply load_folder_keys in Hin.
    cbn [topic_button callback_data fst]. now rewrite route_topic_button by auto.
  - left. apply in_map_iff in Hin as ([k t] & <- & Hin).
    apply load_folder_keys in Hin.
    cbn [topic_button callback_data fst]. now rewrite route_topic_button by auto.
Qed.

Lemma loaded_menu_buttons_start_quizzes_witness :
  route (callback_data
           (topic_button "gk_"
              ("capitals.json",
               {| path := "/bot/gk_topics/capitals.json"; title := "Capitals" |})))
  = Some start_gk_quiz_h \/
  topic_button "gk_"
    ("capitals.json",
     {| path := "/bot/gk_topics/capitals.json"; title := "Capitals" |})
  = back_button.
Proof.
  destruct (loaded_menu_buttons_start_quizzes (fun s => s) sample_disk) as (Hgk & _).
  apply Hgk. vm_compute. left. reflexivity.
Defined.

(** ** From a file in a topic folder to its quiz *)

Lemma dict_get_cached title_case dir files entry :
  NoDup (map fst files) ->
  In entry files ->
  loadable entry = true ->
  dict_get (fst entry) (map (cached_entry title_case dir) (List.filter loadable files))
  = Some (snd (cached_entry title_case dir entry)).
Proof.
  induction files as [| a files IH]; intros Hnd Hin Hl; [contradiction |].
  simpl in Hnd. apply NoDup_cons in Hnd as (Hnew & Hnd).
  cbn [List.filter]. destruct Hin as [-> | Hin].
  - rewrite Hl. cbn [map dict_get cached_entry fst]. now rewrite String.eqb_refl.
  - destruct (loadable a) eqn:Ha; [| now apply IH].
    cbn [map dict_get]. unfold cached_entry at 1. cbn [fst].
    destruct (String.eqb_spec (fst a) (fst entry)) as [E | _]; [| now apply IH].
    exfalso. apply Hnew. rewrite E. apply list_elem_of_In, in_map, Hin.
Qed.

(** X14.  A file listed once in a topic folder, whose name ends in
    [".json"] and does not contain the prefix of the category, and which
    held an object with a list of questions when the topics were loaded,
    has its button in the topic menu, and a tap on that button starts the
    quiz read from the path of the file in the folder, under the title
    that was cached. *)
Theorem listed_file_can_be_started title_case disk w read uid chat_id files entry :
  NoDup (map fst files) ->
  In entry files ->
  loadable entry = true ->
  let cached_topics := fst (load_topics title_case disk) in
  (listdir disk (path_join (cwd disk) "gk_topics") = Some files ->
   occurs "gk_" (fst entry) = false ->
   let dir := path_join (cwd disk) "gk_topics" in
   let shown := cached_entry title_case dir entry in
   In (topic_button "gk_" shown) (show_gk_topics cached_topics) /\
   start_gk_quiz w read cached_topics uid chat_id
     (callback_data (topic_button "gk_" shown))
   = start_quiz_from_file w uid chat_id (read (path_join dir (fst entry)))
       (title (snd shown))) /\
  (listdir disk (path_join (cwd disk) "current_affairs") = Some files ->
   occurs "ca_" (fst entry) = false ->
   let dir := path_join (cwd disk) "current_affairs" in
   let shown := cached_entry title_case dir entry in
   In (topic_button "ca_" shown) (show_ca_topics cached_topics) /\
   start_ca_quiz w read cached_topics uid chat_id
     (callback_data (topic_button "ca_" shown))
   = start_quiz_from_file w uid chat_id (read (path_join dir (fst entry)))
       (title (snd shown))).
Proof.
  intros Hnd Hin Hl cached_topics. subst cached_topics.
  rewrite load_topics_catalog.
  split; intros Hls Hclean dir shown.
  - unfold show_gk_topics, start_gk_quiz. cbn [gk].
    rewrite (load_folder_listed _ _ _ files Hls Hnd). fold dir. split.
    + apply in_or_app. left. apply in_map, in_map.
      apply filter_In. now split.
    + change (py_remove "gk_" (callback_data (topic_button "gk_" shown)))
        with (remove_from "gk_" 0 (fst entry)).
      rewrite (remove_from_absent _ _ Hclean).
      now rewrite (dict_get_cached title_case dir files entry Hnd Hin Hl).
  - unfold show_ca_topics, start_ca_quiz. cbn [ca].
    rewrite (load_folder_listed _ _ _ files Hls Hnd). fold dir. split.
    + apply in_or_app. left. apply in_map, in_map.
      apply filter_In. now split.
    + change (py_remove "ca_" (callback_data (topic_button "ca_" shown)))
        with (remove_from "ca_" 0 (fst entry)).
      rewrite (remove_from_absent _ _ Hclean).
      now rewrite (dict_get_cached title_case dir files entry Hnd Hin Hl).
Qed.

Lemma listed_file_can_be_started_witness :
  start_gk_quiz world0 (fun _ => TopicData (Some capitals))
    (fst (load_topics (fun s => s) sample_disk)) 1 1 "gk_capitals.json"
  = start_quiz_from_file world0 1 1 (TopicData (Some capitals)) "Capitals".
Proof.
  destruct (listed_file_can_be_started (fun s => s) sample_disk world0
              (fun _ => TopicData (Some capitals)) 1 1 sample_files
              ("capitals.json", JsonObject (Some "Capitals") (QList capitals)))
    as (Hgk & _).
  - exact sample_files_distinct.
  - left. reflexivity.
  - reflexivity.
  - destruct Hgk as (_ & Hstart); [reflexivity | reflexivity |].
    exact Hstart.
Defined.

(** ** An answer that no button can give *)

(** X7.  When the answer of the question at the cursor is none of its
    options, and no option contains ["answer_"], a tap on any of the
    option buttons shown for that question is graded incorrect, with the
    expected answer in the toast, and counted as an incorrect attempt: the
    question cannot be answered correctly from its keyboard. *)
Theorem answer_outside_options_cannot_be_hit w uid chat_id option
    (s : gmap Z UserState) state q opts expected :
  s !! uid = Some state ->
  0 <= current_q_index state ->
  questions state !! Z.to_nat (current_q_index state) = Some q ->
  options q = Some opts ->
  answer q = Some expected ->
  ~ In expected opts ->
  Forall (fun o => occurs "answer_" o = false) opts ->
  In (option_button option) (map option_button opts) ->
  handle_answer w uid chat_id (callback_data (option_button option)) s
  = after [CallbackAnswer (ToastIncorrect expected)]
      (send_question w uid chat_id (<[uid:=graded false state]> s)) /\
  incorrect_answers (graded false state) = incorrect_answers state + 1 /\
  score (graded false state) = score state.
Proof.
  intros Hs Hc Hq Ho Ha Hout Hclean Hin.
  apply in_map_iff in Hin as (o & Ho' & Hin).
  assert (o = option) as -> by (now injection Ho').
  assert (py_getitem (questions state) (current_q_index state) = Some q) as Hget
    by (rewrite py_getitem_nonneg by assumption; exact Hq).
  pose proof (handle_answer_graded w uid chat_id
                (callback_data (option_button option)) s state q expected
                Hs Hget Ha) as E.
  cbv zeta in E.
  rewrite button_round_trip in E
    by (rewrite Forall_forall in Hclean; apply Hclean, list_elem_of_In; exact Hin).
  destruct (String.eqb_spec option expected) as [-> | _]; [contradiction |].
  split; [exact E |]. split; reflexivity.
Qed.

Lemma answer_outside_options_cannot_be_hit_witness :
  handle_answer world0 1 1 (callback_data (option_button "Berlin"))
    {[ 1 := new_state world0
              [ {| question := Some "Capital of France?";
                   options := Some ["Lyon"; "Berlin"]; answer := Some "Paris" |} ] ]}
  = after [CallbackAnswer (ToastIncorrect "Paris")]
      (send_question world0 1 1
         (<[1:=graded false
                 (new_state world0
                    [ {| question := Some "Capital of France?";
                         options := Some ["Lyon"; "Berlin"];
                         answer := Some "Paris" |} ])]>
            {[ 1 := new_state world0
                      [ {| question := Some "Capital of France?";
                           options := Some ["Lyon"; "Berlin"];
                           answer := Some "Paris" |} ] ]})).
Proof.
  apply (answer_outside_options_cannot_be_hit world0 1 1 "Berlin" _
           (new_state world0
              [ {| question := Some "Capital of France?";
                   options := Some ["Lyon"; "Berlin"]; answer := Some "Paris" |} ])
           {| question := Some "Capital of France?";
              options := Some ["Lyon"; "Berlin"]; answer := Some "Paris" |}
           ["Lyon"; "Berlin"] "Paris").
  - reflexivity.
  - simpl. lia.
  - reflexivity.
  - reflexivity.
  - reflexivity.
  - intros [H | [H | H]]; [discriminate | discriminate | exact H].
  - repeat constructor.
  - right. left. reflexivity.
Defined.

(** ** When [handle_answer] raises *)

(** X16.  For a session whose cursor is not negative: with the cursor
    beyond the last question [handle_answer] raises [IndexError] and has
    changed and sent nothing; on a question without ["answer"] it raises
    [KeyError] when attempted_questions is already counted, nothing is
    sent and the cursor stays, so that the same tap raises again and
    counts once more. *)
Theorem handle_answer_index_and_key_errors w uid chat_id data
    (s : gmap Z UserState) state :
  s !! uid = Some state ->
  0 <= current_q_index state ->
  (questions state !! Z.to_nat (current_q_index state) = None ->
   handle_answer w uid chat_id data s
   = {| store := s; trace := []; raised := Some IndexError |}) /\
  (forall q,
     questions state !! Z.to_nat (current_q_index state) = Some q ->
     answer q = None ->
     let r := handle_answer w uid chat_id data s in
     r = {| store := <[uid:=count_attempt state]> s; trace := [];
            raised := Some KeyError |} /\
     handle_answer w uid chat_id data (store r)
     = {| store := <[uid:=count_attempt (count_attempt state)]> s; trace := [];
          raised := Some KeyError |}).
Proof.
  intros Hs Hc.
  pose proof (py_getitem_nonneg (questions state) (current_q_index state) Hc) as Hget.
  split.
  - intros Hnone. unfold handle_answer. now rewrite Hs, Hget, Hnone.
  - intros q Hq Ha r. rewrite Hq in Hget.
    assert (r = {| store := <[uid:=count_attempt state]> s; trace := [];
                   raised := Some KeyError |}) as E
      by (apply (handle_answer_without_answer w uid chat_id data s state q Hs Hget Ha)).
    split; [exact E |]. rewrite E. cbn [store].
    rewrite (handle_answer_without_answer w uid chat_id data _ (count_attempt state) q
               (lookup_insert_eq _ _ _) Hget Ha).
    now rewrite insert_insert_state.
Qed.

Lemma handle_answer_index_and_key_errors_witness :
  handle_answer world0 1 1 "answer_Paris" flawed_store
  = {| store := <[1:=count_attempt (new_state world0 [france_without_answer; japan])]>
                  flawed_store;
       trace := []; raised := Some KeyError |}.
Proof.
  destruct (handle_answer_index_and_key_errors world0 1 1 "answer_Paris" flawed_store
              (new_state world0 [france_without_answer; japan]))
    as (_ & Hkey).
  - reflexivity.
  - simpl. lia.
  - destruct (Hkey france_without_answer) as (E & _); [reflexivity | reflexivity |].
    exact E.
Defined.

(** ** From one question to the next, and to the summary *)

Lemma skip_question_some w uid chat_id (s : gmap Z UserState) state :
  s !! uid = Some state ->
  skip_question w uid chat_id s =
  send_question w uid chat_id (<[uid:=next_index state]> s).
Proof.
  intros Hs. unfold skip_question. rewrite Hs.
  unfold seq, update. cbn [raised store trace].
  rewrite (alter_insert_state next_index uid s state Hs).
  now rewrite after_nil.
Qed.

(** [send_question] on a well-formed question, without any recursion. *)
Lemma send_question_shows_question w uid chat_id (s : gmap Z UserState)
    state q body opts expected :
  0 <= current_q_index state ->
  questions state !! Z.to_nat (current_q_index state) = Some q ->
  question q = Some body -> options q = Some opts -> answer q = Some expected ->
  send_question w uid chat_id (<[uid:=state]> s)
  = {| store := <[uid:=set_last_message (sent_message_id w) state]> s;
       trace := [SendMessage chat_id
                   (MsgQuestion (current_q_index state + 1) body
                      (map option_button opts ++ [skip_button]))];
       raised := None |}.
Proof.
  intros Hc Hq Hb Ho Ha.
  pose proof (lookup_lt_Some _ _ _ Hq) as Hlt.
  rewrite send_question_eq, lookup_insert_eq.
  destruct (decide _) as [Hge | _]; [lia |].
  rewrite py_getitem_nonneg, Hq by assumption.
  unfold well_formed, present. rewrite Hb, Ho, Ha.
  unfold seq, emit, update; cbn [raised store trace after app].
  rewrite (alter_insert_state _ uid _ state) by apply lookup_insert_eq.
  now rewrite insert_insert_state.
Qed.

(** [send_question] at the end of the list, without any recursion. *)
Lemma send_question_ends_quiz w uid chat_id (s : gmap Z UserState) state :
  Z.of_nat (length (questions state)) <= current_q_index state ->
  send_question w uid chat_id (<[uid:=state]> s)
  = {| store := delete uid s;
       trace := [SendMessage chat_id
                   (MsgSummary (score state) (correct_answers state)
                      (incorrect_answers state) (attempted_questions state)
                      (time_now w - total_time_start state));
                 SendMessage chat_id MsgMainMenu];
       raised := None |}.
Proof.
  intros Hc. rewrite send_question_eq, lookup_insert_eq.
  destruct (decide _) as [_ | Hlt]; [| lia].
  rewrite (end_quiz_some w uid chat_id _ state) by apply lookup_insert_eq.
  now rewrite delete_insert_eq.
Qed.

(** X5.  When the entry after the cursor has its text, its list of
    options and its answer, an answer to the current question (which has
    an answer) sends the toast and then that next entry as a question,
    numbered by its place in the list, with one button per option and the
    skip button; a skip sends the question alone.  The session is left
    with the cursor on that entry, the id of the message kept, and, for
    an answer, the counters graded. *)
Theorem next_question_is_shown w uid chat_id data (s : gmap Z UserState)
    state next body opts next_answer :
  s !! uid = Some state ->
  0 <= current_q_index state ->
  questions state !! Z.to_nat (current_q_index state + 1) = Some next ->
  question next = Some body ->
  options next = Some opts ->
  answer next = Some next_answer ->
  let shown := SendMessage chat_id
                 (MsgQuestion (current_q_index state + 2) body
                    (map option_button opts ++ [skip_button])) in
  skip_question w uid chat_id s
  = {| store := <[uid:=set_last_message (sent_message_id w) (next_index state)]> s;
       trace := [shown]; raised := None |} /\
  (forall q expected,
     questions state !! Z.to_nat (current_q_index state) = Some q ->
     answer q = Some expected ->
     let hit := String.eqb (py_remove "answer_" data) expected in
     handle_answer w uid chat_id data s
     = {| store := <[uid:=set_last_message (sent_message_id w) (graded hit state)]> s;
          trace := [CallbackAnswer (if hit then ToastCorrect
                                    else ToastIncorrect expected);
                    shown];
          raised := None |}).
Proof.
  intros Hs Hc Hnext Hb Ho Ha shown. split.
  - rewrite (skip_question_some w uid chat_id s state Hs).
    rewrite (send_question_shows_question w uid chat_id s (next_index state)
               next body opts next_answer); try assumption; [| simpl; lia].
    cbn [next_index current_q_index]. subst shown.
    now replace (current_q_index state + 1 + 1) with (current_q_index state + 2) by lia.
  - intros q expected Hq Hans hit.
    assert (py_getitem (questions state) (current_q_index state) = Some q) as Hget
      by (rewrite py_getitem_nonneg by assumption; exact Hq).
    pose proof (handle_answer_graded w uid chat_id data s state q expected
                  Hs Hget Hans) as E.
    cbv zeta in E. fold hit in E. rewrite E.
    rewrite (send_question_shows_question w uid chat_id s (graded hit state)
               next body opts next_answer); try assumption.
    + cbn [after store trace raised app]. subst shown.
      replace (current_q_index (graded hit state) + 1)
        with (current_q_index state + 2)
        by (unfold graded; destruct hit; simpl; lia).
      reflexivity.
    + unfold graded; destruct hit; simpl; lia.
    + unfold graded; destruct hit; exact Hnext.
Qed.

Lemma next_question_is_shown_witness :
  skip_question world0 1 1 capitals_store
  = {| store := <[1:=set_last_message 7
                       (next_index (set_last_message 7 (new_state world0 capitals)))]>
                  capitals_store;
       trace := [SendMessage 1
                   (MsgQuestion 2 "Capital of Japan?"
                      (map option_button ["Tokyo"; "Seoul"] ++ [skip_button]))];
       raised := None |}.
Proof.
  destruct (next_question_is_shown world0 1 1 "answer_Paris" capitals_store
              (set_last_message 7 (new_state world0 capitals))
              {| question := Some "Capital of Japan?";
                 options := Some ["Tokyo"; "Seoul"]; answer := Some "Tokyo" |}
              "Capital of Japan?" ["Tokyo"; "Seoul"] "Tokyo") as (Hskip & _).
  - reflexivity.
  - simpl. lia.
  - reflexivity.
  - reflexivity.
  - reflexivity.
  - reflexivity.
  - exact Hskip.
Defined.

(** X4.  On the last question of the list, an answer (to a question that
    has an answer) sends the toast, then the summary, then the main menu,
    and removes the session; the summary carries the counters with this
    answer graded: attempted_questions one more than before, and the
    score and correct_answers, or else incorrect_answers, one more.  A
    skip on the last question sends the summary with the counters as they
    were, then the main menu, and removes the session. *)
Theorem last_question_ends_with_summary w uid chat_id data (s : gmap Z UserState) state :
  s !! uid = Some state ->
  0 <= current_q_index state ->
  current_q_index state + 1 = Z.of_nat (length (questions state)) ->
  (exists elapsed,
     skip_question w uid chat_id s
     = {| store := delete uid s;
          trace := [SendMessage chat_id
                      (MsgSummary (score state) (correct_answers state)
                         (incorrect_answers state) (attempted_questions state)
                         elapsed);
                    SendMessage chat_id MsgMainMenu];
          raised := None |}) /\
  (forall q expected,
     questions state !! Z.to_nat (current_q_index state) = Some q ->
     answer q = Some expected ->
     let hit := String.eqb (py_remove "answer_" data) expected in
     exists elapsed,
       handle_answer w uid chat_id data s
       = {| store := delete uid s;
            trace := [CallbackAnswer (if hit then ToastCorrect
                                      else ToastIncorrect expected);
                      SendMessage chat_id
                        (MsgSummary
                           (if hit then score state + 1 else score state)
                           (if hit then correct_answers state + 1
                            else correct_answers state)
                           (if hit then incorrect_answers state
                            else incorrect_answers state + 1)
                           (attempted_questions state + 1)
                           elapsed);
                      SendMessage chat_id MsgMainMenu];
            raised := None |}).
Proof.
  intros Hs Hc Hlast. split.
  - eexists. rewrite (skip_question_some w uid chat_id s state Hs).
    rewrite send_question_ends_quiz by (simpl; lia). reflexivity.
  - intros q expected Hq Hans hit.
    assert (py_getitem (questions state) (current_q_index state) = Some q) as Hget
      by (rewrite py_getitem_nonneg by assumption; exact Hq).
    pose proof (handle_answer_graded w uid chat_id data s state q expected
                  Hs Hget Hans) as E.
    cbv zeta in E. fold hit in E.
    exists (time_now w - total_time_start state). rewrite E.
    rewrite send_question_ends_quiz
      by (unfold graded; destruct hit; simpl; lia).
    unfold graded. destruct hit; reflexivity.
Qed.

Lemma last_question_ends_with_summary_witness :
  exists elapsed,
    skip_question world0 1 1 doubled_store
    = {| store := delete 1 doubled_store;
         trace := [SendMessage 1 (MsgSummary 0 0 0 0 elapsed);
                   SendMessage 1 MsgMainMenu];
         raised := None |}.
Proof.
  destruct (last_question_ends_with_summary world0 1 1 "answer_Paris" doubled_store
              (set_last_message 7 (new_state world0 [france_doubled])))
    as (Hskip & _).
  - reflexivity.
  - simpl. lia.
  - reflexivity.
  - exact Hskip.
Defined.
